(** * ckanserviceprovider.db: the transactional job-record store

    A shallow embedding of [ckanserviceprovider/db.py]: the three tables
    declared by [_init_jobs_table], [_init_metadata_table] and
    [_init_logs_table], the operations [add_pending_job],
    [mark_job_as_completed], [get_job], [_get_metadata] and [_get_logs],
    and the Python values and [json] functions they rely on. *)

From Stdlib Require Import ZArith NArith String Ascii List Lia.
From Stdlib Require Import DecimalString DecimalN DecimalFacts.
From stdpp Require Import base option gmap strings list fin_maps sorting.

Local Set Warnings "-register-all".

(** ** Python values *)

(** [datetime.datetime] (naive, as returned by [datetime.datetime.now()]). *)
Record datetime := DateTime {
  year : N; month : N; day : N;
  hour : N; minute : N; second : N; microsecond : N
}.

(** The Python values that flow through the module: [None], booleans,
    integers, unicode strings (code points below 256), datetimes, lists and
    dicts with string keys.  Floats are left out. *)
Inductive pyval :=
| PNone
| PBool (b : bool)
| PInt (z : Z)
| PStr (s : string)
| PDateTime (t : datetime)
| PList (l : list pyval)
| PDict (d : gmap string pyval).

(** Exceptions raised by the code paths of the module. *)
Inductive exn :=
| TypeError        (* json.dumps on a non-serializable value, json.loads on a non-string *)
| ValueError       (* json.loads on a text that is not JSON *)
| AttributeError   (* .items() on a value that is not a dict *)
| IntegrityError.  (* sqlalchemy.exc.IntegrityError: a primary key is already present *)

Inductive result (A : Type) :=
| Ok (a : A)
| Raise (e : exn).
Arguments Ok {A} a.
Arguments Raise {A} e.

Module Py.

Definition dquote : ascii := "034"%char.
Definition squote : ascii := "039"%char.
Definition backslash : ascii := "092"%char.

(** [bool(v)]: Python truthiness, as used by [if not data]. *)
Definition truthy (v : pyval) : bool :=
  match v with
  | PNone => false
  | PBool b => b
  | PInt z => negb (z =? 0)%Z
  | PStr s => negb (String.eqb s "")
  | PDateTime _ => true
  | PList l => match l with [] => false | _ => true end
  | PDict d => negb (bool_decide (d = ∅))
  end.

(** [isinstance(v, basestring)]. *)
Definition is_basestring (v : pyval) : bool :=
  match v with PStr _ => true | _ => false end.

(** Decimal digits of a natural number. *)
Definition digits (n : N) : string := NilEmpty.string_of_uint (N.to_uint n).

(** [str(z)] for an integer. *)
Definition str_int (z : Z) : string :=
  match z with
  | Z0 => "0"
  | Zpos p => digits (Npos p)
  | Zneg p => "-" +:+ digits (Npos p)
  end.

(** ["%0<w>d" % n]. *)
Definition zero_pad (w : nat) (n : N) : string :=
  let s := digits n in
  String.concat "" (replicate (w - String.length s) "0") +:+ s.

(** [t.isoformat(sep)]. *)
Definition isoformat_sep (sep : string) (t : datetime) : string :=
  zero_pad 4 (year t) +:+ "-" +:+ zero_pad 2 (month t) +:+ "-" +:+
  zero_pad 2 (day t) +:+ sep +:+
  zero_pad 2 (hour t) +:+ ":" +:+ zero_pad 2 (minute t) +:+ ":" +:+
  zero_pad 2 (second t) +:+
  (if (microsecond t =? 0)%N then "" else "." +:+ zero_pad 6 (microsecond t)).

Definition isoformat : datetime → string := isoformat_sep "T".

(** Lexicographic comparison of two datetimes (Python's [<=]). *)
Definition datetime_fields (t : datetime) : list N :=
  [year t; month t; day t; hour t; minute t; second t; microsecond t].

Fixpoint lex_leb (a b : list N) : bool :=
  match a, b with
  | [], _ => true
  | _ :: _, [] => false
  | x :: a', y :: b' =>
      if (x <? y)%N then true
      else if (y <? x)%N then false
      else lex_leb a' b'
  end.

Definition datetime_leb (a b : datetime) : bool :=
  lex_leb (datetime_fields a) (datetime_fields b).

Definition hex_digit (n : N) : ascii :=
  match String.get (N.to_nat n) "0123456789abcdef" with
  | Some c => c
  | None => "0"%char
  end.

Definition hex2 (n : N) : string :=
  String (hex_digit (n / 16)) (String (hex_digit (n mod 16)) "").

(** [repr] of a unicode string (CPython 2): [u'...'], with the double quote
    as delimiter when the text holds a single quote and no double quote. *)
Fixpoint string_mem (c : ascii) (s : string) : bool :=
  match s with
  | EmptyString => false
  | String c' r => if Ascii.eqb c c' then true else string_mem c r
  end.

Definition repr_char (q c : ascii) : string :=
  let n := N_of_ascii c in
  if Ascii.eqb c q || Ascii.eqb c backslash then String backslash (String c "")
  else if (n =? 9)%N then String backslash "t"
  else if (n =? 10)%N then String backslash "n"
  else if (n =? 13)%N then String backslash "r"
  else if (n <? 32)%N || (127 <=? n)%N then String backslash ("x" +:+ hex2 n)
  else String c "".

Fixpoint repr_chars (q : ascii) (s : string) : string :=
  match s with
  | EmptyString => ""
  | String c r => repr_char q c +:+ repr_chars q r
  end.

Definition repr_unicode (s : string) : string :=
  let q := if string_mem squote s && negb (string_mem dquote s)
           then dquote else squote in
  "u" +:+ String q (repr_chars q s) +:+ String q "".

(** [repr] of a datetime. *)
Definition repr_datetime (t : datetime) : string :=
  "datetime.datetime(" +:+ digits (year t) +:+ ", " +:+ digits (month t) +:+
  ", " +:+ digits (day t) +:+ ", " +:+ digits (hour t) +:+ ", " +:+
  digits (minute t) +:+
  (if (microsecond t =? 0)%N
   then (if (second t =? 0)%N then "" else ", " +:+ digits (second t))
   else ", " +:+ digits (second t) +:+ ", " +:+ digits (microsecond t)) +:+
  ")".

(** [repr(v)] (CPython 2, 64-bit: integers outside the machine range are
    longs and print with an [L]). *)
Fixpoint repr (v : pyval) : string :=
  match v with
  | PNone => "None"
  | PBool b => if b then "True" else "False"
  | PInt z =>
      if ((- 2 ^ 63 <=? z) && (z <? 2 ^ 63))%Z then str_int z
      else str_int z +:+ "L"
  | PStr s => repr_unicode s
  | PDateTime t => repr_datetime t
  | PList l => "[" +:+ String.concat ", " (repr <$> l) +:+ "]"
  | PDict d =>
      "{" +:+
      String.concat ", "
        ((λ kv : string * string, repr_unicode kv.1 +:+ ": " +:+ kv.2)
           <$> map_to_list (repr <$> d)) +:+
      "}"
  end.

(** [unicode(v)]: the text itself for a string, [str(v)] otherwise. *)
Definition unicode (v : pyval) : string :=
  match v with
  | PStr s => s
  | PInt z => str_int z
  | PDateTime t => isoformat_sep " " t
  | _ => repr v
  end.

End Py.

(** ** The [json] module *)

Module Json.
Import Py.

(** *** [json.dumps] (default options: [ensure_ascii], separators [", "]
    and [": "]) *)

(** One character of [encode_basestring_ascii]: the characters from the
    space to the tilde stand for themselves, except the double quote and
    the backslash; the others are escaped. *)
Definition escape_char (c : ascii) : string :=
  let n := N_of_ascii c in
  if Ascii.eqb c dquote then String backslash (String dquote "")
  else if Ascii.eqb c backslash then String backslash (String backslash "")
  else if (n =? 8)%N then String backslash "b"
  else if (n =? 12)%N then String backslash "f"
  else if (n =? 10)%N then String backslash "n"
  else if (n =? 13)%N then String backslash "r"
  else if (n =? 9)%N then String backslash "t"
  else if (32 <=? n)%N && (n <=? 126)%N then String c ""
  else String backslash ("u00" +:+ hex2 n).

Fixpoint escape (s : string) : string :=
  match s with
  | EmptyString => ""
  | String c r => escape_char c +:+ escape r
  end.

Definition encode_basestring_ascii (s : string) : string :=
  String dquote (escape s +:+ String dquote "").

(** The values [json.dumps] accepts: anything without a datetime inside. *)
Fixpoint encodable (v : pyval) : bool :=
  match v with
  | PDateTime _ => false
  | PList l => forallb encodable l
  | PDict d => forallb snd (map_to_list (encodable <$> d))
  | _ => true
  end.

Definition member_text (kv : string * string) : string :=
  encode_basestring_ascii kv.1 +:+ ": " +:+ kv.2.

(** The text [json.dumps] produces for an encodable value (a datetime has
    none: [dumps] raises before any text is produced). *)
Fixpoint text (v : pyval) : string :=
  match v with
  | PNone => "null"
  | PBool b => if b then "true" else "false"
  | PInt z => str_int z
  | PStr s => encode_basestring_ascii s
  | PDateTime _ => ""
  | PList l => "[" +:+ String.concat ", " (text <$> l) +:+ "]"
  | PDict d =>
      "{" +:+ String.concat ", " (member_text <$> map_to_list (text <$> d))
      +:+ "}"
  end.

(** [json.dumps(v)]: [TypeError] when [v] is not JSON serializable. *)
Definition dumps (v : pyval) : result string :=
  if encodable v then Ok (text v) else Raise TypeError.

(** *** [json.loads] *)

Definition is_ws (c : ascii) : bool :=
  let n := N_of_ascii c in
  (n =? 32)%N || (n =? 9)%N || (n =? 10)%N || (n =? 13)%N.

Fixpoint skip_ws (s : string) : string :=
  match s with
  | EmptyString => ""
  | String c r => if is_ws c then skip_ws r else s
  end.

Definition hex_value (c : ascii) : option N :=
  let n := N_of_ascii c in
  if (48 <=? n)%N && (n <=? 57)%N then Some (n - 48)%N
  else if (97 <=? n)%N && (n <=? 102)%N then Some (n - 87)%N
  else if (65 <=? n)%N && (n <=? 70)%N then Some (n - 55)%N
  else None.

(** The decoder's table of one-letter escapes. *)
Definition unescape (c : ascii) : option ascii :=
  if Ascii.eqb c dquote then Some dquote
  else if Ascii.eqb c backslash then Some backslash
  else if Ascii.eqb c "/" then Some "/"%char
  else if Ascii.eqb c "b" then Some "008"%char
  else if Ascii.eqb c "f" then Some "012"%char
  else if Ascii.eqb c "n" then Some "010"%char
  else if Ascii.eqb c "r" then Some "013"%char
  else if Ascii.eqb c "t" then Some "009"%char
  else None.

(** [scanstring]: the text after an opening double quote, up to the closing
    one.  Control characters are refused (strict mode); a [\u] escape of a
    code point above 255 has no value in this model. *)
Fixpoint scanstring (s : string) : option (string * string) :=
  match s with
  | EmptyString => None
  | String c r =>
      if Ascii.eqb c dquote then Some ("", r)
      else if Ascii.eqb c backslash then
        match r with
        | EmptyString => None
        | String e r1 =>
            if Ascii.eqb e "u" then
              match r1 with
              | String h1 (String h2 (String h3 (String h4 r2))) =>
                  a ← hex_value h1; b ← hex_value h2;
                  c ← hex_value h3; d ← hex_value h4;
                  if (a =? 0)%N && (b =? 0)%N then
                    '(x, r') ← scanstring r2;
                    Some (String (ascii_of_N (c * 16 + d)) x, r')
                  else None
              | _ => None
              end
            else
              ch ← unescape e;
              '(x, r') ← scanstring r1;
              Some (String ch x, r')
        end
      else if (N_of_ascii c <? 32)%N then None
      else '(x, r') ← scanstring r; Some (String c x, r')
  end.

Definition digit_of_char (c : ascii) : option (Decimal.uint → Decimal.uint) :=
  match N_of_ascii c with
  | 48%N => Some Decimal.D0 | 49%N => Some Decimal.D1
  | 50%N => Some Decimal.D2 | 51%N => Some Decimal.D3
  | 52%N => Some Decimal.D4 | 53%N => Some Decimal.D5
  | 54%N => Some Decimal.D6 | 55%N => Some Decimal.D7
  | 56%N => Some Decimal.D8 | 57%N => Some Decimal.D9
  | _ => None
  end.

Fixpoint read_digits (s : string) : Decimal.uint * string :=
  match s with
  | EmptyString => (Decimal.Nil, "")
  | String c r =>
      match digit_of_char c with
      | Some D => let '(d, r') := read_digits r in (D d, r')
      | None => (Decimal.Nil, s)
      end
  end.

(** A run of digits without a superfluous leading zero. *)
Definition scan_nat (s : string) : option (N * string) :=
  let '(d, r) := read_digits s in
  if Decimal.uint_beq (Decimal.unorm d) d then Some (N.of_uint d, r)
  else None.

Fixpoint strip_prefix (p s : string) : option string :=
  match p, s with
  | EmptyString, _ => Some s
  | String a p', String b s' => if Ascii.eqb a b then strip_prefix p' s' else None
  | String _ _, EmptyString => None
  end.

(** An integer literal; fractions and exponents (floats) have no value in
    this model. *)
Definition scan_number (s : string) : option (pyval * string) :=
  match strip_prefix "-" s with
  | Some r => '(n, r') ← scan_nat r; Some (PInt (- Z.of_N n), r')
  | None => '(n, r') ← scan_nat s; Some (PInt (Z.of_N n), r')
  end.

(** [dict(pairs)]: a later pair overrides an earlier one. *)
Definition dict_of_pairs (l : list (string * pyval)) : gmap string pyval :=
  foldl (λ d kv, <[kv.1 := kv.2]> d) ∅ l.

(** [scan_once], [JSONArray] and [JSONObject] of the decoder, with the
    nesting bounded by [fuel]. *)
Fixpoint scan_once (fuel : nat) (s : string) : option (pyval * string) :=
  match fuel with
  | O => None
  | S n =>
      match s with
      | EmptyString => None
      | String c r =>
          if Ascii.eqb c dquote then
            '(x, r') ← scanstring r; Some (PStr x, r')
          else if Ascii.eqb c "{" then
            match strip_prefix "}" (skip_ws r) with
            | Some r' => Some (PDict ∅, r')
            | None =>
                '(kvs, r') ← JSONObject n (skip_ws r);
                Some (PDict (dict_of_pairs kvs), r')
            end
          else if Ascii.eqb c "[" then
            match strip_prefix "]" (skip_ws r) with
            | Some r' => Some (PList [], r')
            | None => '(l, r') ← JSONArray n (skip_ws r); Some (PList l, r')
            end
          else if Ascii.eqb c "n" then
            r' ← strip_prefix "ull" r; Some (PNone, r')
          else if Ascii.eqb c "t" then
            r' ← strip_prefix "rue" r; Some (PBool true, r')
          else if Ascii.eqb c "f" then
            r' ← strip_prefix "alse" r; Some (PBool false, r')
          else scan_number s
      end
  end
with JSONArray (fuel : nat) (s : string) : option (list pyval * string) :=
  match fuel with
  | O => None
  | S n =>
      '(v, r) ← scan_once n s;
      match skip_ws r with
      | EmptyString => None
      | String c r1 =>
          if Ascii.eqb c "]" then Some ([v], r1)
          else if Ascii.eqb c "," then
            '(l, r2) ← JSONArray n (skip_ws r1); Some (v :: l, r2)
          else None
      end
  end
with JSONObject (fuel : nat) (s : string)
    : option (list (string * pyval) * string) :=
  match fuel with
  | O => None
  | S n =>
      r ← strip_prefix (String dquote "") s;
      '(k, r1) ← scanstring r;
      r2 ← strip_prefix ":" (skip_ws r1);
      '(v, r3) ← scan_once n (skip_ws r2);
      match skip_ws r3 with
      | EmptyString => None
      | String c r4 =>
          if Ascii.eqb c "}" then Some ([(k, v)], r4)
          else if Ascii.eqb c "," then
            '(kvs, r5) ← JSONObject n (skip_ws r4); Some ((k, v) :: kvs, r5)
          else None
      end
  end.

(** [json.loads(v)]: [TypeError] when [v] is not a string, [ValueError]
    when the text is not JSON (or has trailing data).  The texts whose
    value lies outside [pyval] (a number with a fraction or an exponent,
    [NaN], [Infinity], a [\u] escape above [00ff]) are answered with
    [ValueError] too, although [json.loads] decodes them. *)
Definition loads (v : pyval) : result pyval :=
  match v with
  | PStr s =>
      match scan_once (String.length s) (skip_ws s) with
      | Some (x, r) =>
          if String.eqb (skip_ws r) "" then Ok x else Raise ValueError
      | None => Raise ValueError
      end
  | _ => Raise TypeError
  end.

(** *** Shapes of texts, used to state the lemmas on [loads] *)

(** What follows a number must not be a digit. *)
Definition no_digit_head (s : string) : Prop :=
  match s with
  | EmptyString => True
  | String c _ => digit_of_char c = None
  end.

(** A character that can start a JSON text: not a blank, not a closing
    bracket. *)
Definition value_start (c : ascii) : bool :=
  negb (is_ws c) && negb (Ascii.eqb c "]") && negb (Ascii.eqb c "}").

Definition head_ok (s : string) : Prop :=
  match s with
  | EmptyString => False
  | String c _ => value_start c = true
  end.

(** A text that starts like a number: a digit or the minus sign. *)
Definition number_head (s : string) : Prop :=
  match s with
  | EmptyString => False
  | String c _ => digit_of_char c ≠ None ∨ c = "-"%char
  end.

(** The text between the brackets of a list, and between the braces of a
    dict. *)
Definition elems_text (l : list pyval) : string :=
  String.concat ", " (text <$> l).

Definition members_text (kvs : list (string * pyval)) : string :=
  String.concat ", " (member_text <$> (prod_map id text <$> kvs)).

End Json.

(** ** The schema *)

(** The [jobs] table of [_init_jobs_table]: [job_id] is the primary key; the
    other cells hold the value bound to the column ([PNone] is NULL). *)
Module JOBS_TABLE.
Record row := Row {
  job_id : string;
  job_type : pyval;
  status : pyval;
  data : pyval;
  error : pyval;
  requested_timestamp : pyval;
  finished_timestamp : pyval;
  sent_data : pyval;
  result_url : pyval;
  api_key : pyval;
  job_key : pyval
}.

(** The row as [result.keys()] and [getattr(result, field)] show it. *)
Definition items (r : row) : list (string * pyval) :=
  [("job_id", PStr (job_id r)); ("job_type", job_type r);
   ("status", status r); ("data", data r); ("error", error r);
   ("requested_timestamp", requested_timestamp r);
   ("finished_timestamp", finished_timestamp r);
   ("sent_data", sent_data r); ("result_url", result_url r);
   ("api_key", api_key r); ("job_key", job_key r)].
End JOBS_TABLE.

(** The [metadata] table of [_init_metadata_table]: primary key
    [(job_id, key)], [job_id] a foreign key into [jobs]. *)
Module METADATA_TABLE.
Record row := Row {
  job_id : string;
  key : string;
  value : pyval;
  type : pyval
}.
End METADATA_TABLE.

(** The [logs] table of [_init_logs_table]: no primary key, [job_id] a
    foreign key into [jobs]. *)
Module LOGS_TABLE.
Record row := Row {
  job_id : string;
  timestamp : pyval;
  message : pyval;
  level : pyval;
  module : pyval;
  funcName : pyval;
  lineno : pyval
}.

Definition items (r : row) : list (string * pyval) :=
  [("job_id", PStr (job_id r)); ("timestamp", timestamp r);
   ("message", message r); ("level", level r); ("module", module r);
   ("funcName", funcName r); ("lineno", lineno r)].
End LOGS_TABLE.

(** The three tables; rows are kept in the order the storage returns them. *)
Record database := Database {
  jobs : list JOBS_TABLE.row;
  metadata : list METADATA_TABLE.row;
  logs : list LOGS_TABLE.row
}.

(** [ENGINE]: the committed database and the connections checked out. *)
Record engine := Engine {
  store : database;
  connections : nat
}.

(** The state left by [init] on a fresh database. *)
Definition init : engine := Engine (Database [] [] []) 0.

(** ** Connections and transactions *)

(** A transaction in progress: what is committed, and what the connection
    sees (its own writes included). *)
Record txn := Txn {
  committed : database;
  working : database
}.

(** Code running on a connection: it updates the transaction and returns or
    raises. *)
Definition conn_op (A : Type) : Type := txn → txn * result A.

Definition ret {A} (a : A) : conn_op A := λ t, (t, Ok a).
Definition raise {A} (x : exn) : conn_op A := λ t, (t, Raise x).
Definition bind {A B} (m : conn_op A) (k : A → conn_op B) : conn_op B :=
  λ t, match m t with
       | (t', Ok a) => k a t'
       | (t', Raise x) => (t', Raise x)
       end.
Definition lift {A} (r : result A) : conn_op A := λ t, (t, r).

#[global] Instance conn_op_ret : MRet conn_op := @ret.
#[global] Instance conn_op_bind : MBind conn_op := λ A B k m, bind m k.

(** [try: body except Exception: handler; raise]. *)
Definition try_except_reraise {A} (body : conn_op A) (handler : conn_op unit)
  : conn_op A :=
  λ t, match body t with
       | (t', Ok a) => (t', Ok a)
       | (t', Raise x) => (fst (handler t'), Raise x)
       end.

(** [ENGINE.connect()], [conn.begin()], [trans.commit()], [trans.rollback()]
    and [conn.close()]. *)
Definition connect (e : engine) : engine :=
  Engine (store e) (S (connections e)).
Definition begin (e : engine) : txn := Txn (store e) (store e).
Definition commit : conn_op unit :=
  λ t, (Txn (working t) (working t), Ok tt).
Definition rollback : conn_op unit :=
  λ t, (Txn (committed t) (committed t), Ok tt).
Definition close (e : engine) (t : txn) : engine :=
  Engine (committed t) (pred (connections e)).

(** ** Statements *)

(** The primary keys present in [jobs] and in [metadata]. *)
Definition job_ids (d : database) : list string :=
  JOBS_TABLE.job_id <$> jobs d.

Definition metadata_keys (d : database) : list (string * string) :=
  (λ r, (METADATA_TABLE.job_id r, METADATA_TABLE.key r)) <$> metadata d.

Definition has_job (job_id : string) (d : database) : bool :=
  bool_decide (job_id ∈ job_ids d).

Definition has_metadata (job_id key : string) (d : database) : bool :=
  bool_decide ((job_id, key) ∈ metadata_keys d).

(** [conn.execute(JOBS_TABLE.insert().values(...))]: the primary key must be
    new. *)
Definition insert_job (r : JOBS_TABLE.row) : conn_op unit :=
  λ t, let d := working t in
       if has_job (JOBS_TABLE.job_id r) d then (t, Raise IntegrityError)
       else (Txn (committed t)
                 (Database (jobs d ++ [r]) (metadata d) (logs d)), Ok tt).

Definition insert_metadata_row (r : METADATA_TABLE.row) : conn_op unit :=
  λ t, let d := working t in
       if has_metadata (METADATA_TABLE.job_id r) (METADATA_TABLE.key r) d
       then (t, Raise IntegrityError)
       else (Txn (committed t)
                 (Database (jobs d) (metadata d ++ [r]) (logs d)), Ok tt).

(** [conn.execute(METADATA_TABLE.insert(), inserts)]: one insert per row. *)
Fixpoint insert_metadata (rows : list METADATA_TABLE.row) : conn_op unit :=
  match rows with
  | [] => ret tt
  | r :: rows' => insert_metadata_row r;; insert_metadata rows'
  end.

(** [JOBS_TABLE.select().where(JOBS_TABLE.c.job_id == job_id)] then [.first()]. *)
Definition select_job (job_id : string) (d : database)
  : option JOBS_TABLE.row :=
  head (filter (λ r, JOBS_TABLE.job_id r = job_id) (jobs d)).

(** [METADATA_TABLE.select().where(METADATA_TABLE.c.job_id == job_id)] then
    [.fetchall()]. *)
Definition select_metadata (job_id : string) (d : database)
  : list METADATA_TABLE.row :=
  filter (λ r, METADATA_TABLE.job_id r = job_id) (metadata d).

(** [LOGS_TABLE.select().where(LOGS_TABLE.c.job_id == job_id)] then
    [.fetchall()]. *)
Definition select_logs (job_id : string) (d : database)
  : list LOGS_TABLE.row :=
  filter (λ r, LOGS_TABLE.job_id r = job_id) (logs d).

(** ** The operations of [db.py] *)

Definition result_bind {A B} (r : result A) (k : A → result B) : result B :=
  match r with
  | Ok a => k a
  | Raise x => Raise x
  end.

#[global] Instance result_mret : MRet result := @Ok.
#[global] Instance result_mbind : MBind result := λ A B k r, result_bind r k.

(** One round of the loop of [get_job] over [result.keys()]. *)
Definition get_job_field (field : string) (value : pyval) : result pyval :=
  match value with
  | PNone => Ok PNone
  | _ =>
      if bool_decide (field ∈ ["sent_data"; "data"; "error"])
      then Json.loads value
      else match value with
           | PDateTime t => Ok (PStr (Py.isoformat t))
           | _ => Ok (PStr (Py.unicode value))
           end
  end.

Fixpoint get_job_fields (fields : list (string * pyval))
    (result_dict : gmap string pyval) : result (gmap string pyval) :=
  match fields with
  | [] => Ok result_dict
  | (field, value) :: fields' =>
      v ← get_job_field field value;
      get_job_fields fields' (<[field := v]> result_dict)
  end.

(** The loop of [_get_metadata] over the fetched rows. *)
Fixpoint _get_metadata_rows (results : list METADATA_TABLE.row)
    (metadata : gmap string pyval) : result (gmap string pyval) :=
  match results with
  | [] => Ok metadata
  | row :: results' =>
      let value := METADATA_TABLE.value row in
      value ← match METADATA_TABLE.type row with
              | PStr "json" => Json.loads value
              | _ => Ok value
              end;
      _get_metadata_rows results' (<[METADATA_TABLE.key row := value]> metadata)
  end.

Definition _get_metadata (job_id : string) (e : engine)
  : result (gmap string pyval) :=
  _get_metadata_rows (select_metadata job_id (store e)) ∅.

(** [dict(row)] then [d.pop('job_id')]. *)
Definition remove_job_id (d : gmap string pyval) : gmap string pyval :=
  delete "job_id" d.

Definition _get_logs (job_id : string) (e : engine)
  : list (gmap string pyval) :=
  let results := select_logs job_id (store e) in
  let results := (λ r, list_to_map (LOGS_TABLE.items r)) <$> results in
  remove_job_id <$> results.

Definition get_job (job_id : string) (e : engine)
  : result (option (gmap string pyval)) :=
  match select_job job_id (store e) with
  | None => Ok None
  | Some result =>
      result_dict ← get_job_fields (JOBS_TABLE.items result) ∅;
      md ← _get_metadata job_id e;
      let result_dict := <["metadata" := PDict md]> result_dict in
      let result_dict :=
        <["logs" := PList (PDict <$> _get_logs job_id e)]> result_dict in
      Ok (Some result_dict)
  end.

(** [metadata.items()]. *)
Definition py_items (v : pyval) : result (list (string * pyval)) :=
  match v with
  | PDict d => Ok (map_to_list d)
  | _ => Raise AttributeError
  end.

(** The loop of [add_pending_job] that builds [inserts]. *)
Fixpoint metadata_inserts (job_id : string) (items : list (string * pyval))
  : result (list METADATA_TABLE.row) :=
  match items with
  | [] => Ok []
  | (key, value) :: items' =>
      '(value, type_) ←
        (if Py.is_basestring value then Ok (value, "string")
         else s ← Json.dumps value; Ok (PStr s, "json"));
      inserts ← metadata_inserts job_id items';
      Ok ({| METADATA_TABLE.job_id := job_id;
             METADATA_TABLE.key := key;
             METADATA_TABLE.value := value;
             METADATA_TABLE.type := PStr type_ |} :: inserts)
  end.

(** The body of the [try] of [add_pending_job]. *)
Definition add_pending_job_body (now : datetime)
    (job_id job_key job_type api_key : string)
    (data metadata result_url : pyval) : conn_op unit :=
  sent_data ← lift (Json.dumps data);
  insert_job
    {| JOBS_TABLE.job_id := job_id;
       JOBS_TABLE.job_type := PStr job_type;
       JOBS_TABLE.status := PStr "pending";
       JOBS_TABLE.requested_timestamp := PDateTime now;
       JOBS_TABLE.sent_data := PStr sent_data;
       JOBS_TABLE.result_url := result_url;
       JOBS_TABLE.api_key := PStr api_key;
       JOBS_TABLE.job_key := PStr job_key;
       (* the columns the insert leaves out are NULL *)
       JOBS_TABLE.data := PNone;
       JOBS_TABLE.error := PNone;
       JOBS_TABLE.finished_timestamp := PNone |};;
  items ← lift (py_items metadata);
  inserts ← lift (metadata_inserts job_id items);
  match inserts with
  | [] => ret tt
  | _ => insert_metadata inserts
  end;;
  commit.

(** [add_pending_job]; [now] is what [datetime.datetime.now()] returns. *)
Definition add_pending_job (now : datetime)
    (job_id job_key job_type api_key : string)
    (data metadata result_url : pyval) (e : engine) : engine * result unit :=
  let data := if Py.truthy data then data else PDict ∅ in
  let metadata := if Py.truthy metadata then metadata else PDict ∅ in
  let conn := connect e in
  let trans := begin conn in
  let '(trans, r) :=
    try_except_reraise
      (add_pending_job_body now job_id job_key job_type api_key
         data metadata result_url)
      rollback trans in
  (close conn trans, r).

(** [mark_job_as_completed]: one UPDATE on the rows whose [job_id] matches;
    [data] is bound to the column as it is given.  [None] and a string are
    bound as they are by every driver; what a driver does with another value
    (refuse it at bind time, or store a text of it) is not modelled: the cell
    then holds the value itself. *)
Definition mark_job_as_completed (now : datetime) (job_id : string)
    (data : pyval) (e : engine) : engine :=
  let status := PStr "complete" in
  let finished_timestamp := PDateTime now in
  let d := store e in
  Engine
    (Database
       ((λ r, if bool_decide (JOBS_TABLE.job_id r = job_id)
              then {| JOBS_TABLE.status := status;
                      JOBS_TABLE.finished_timestamp := finished_timestamp;
                      JOBS_TABLE.api_key := PNone;
                      JOBS_TABLE.data := data;
                      (* the other columns keep their value *)
                      JOBS_TABLE.job_id := JOBS_TABLE.job_id r;
                      JOBS_TABLE.job_type := JOBS_TABLE.job_type r;
                      JOBS_TABLE.error := JOBS_TABLE.error r;
                      JOBS_TABLE.requested_timestamp :=
                        JOBS_TABLE.requested_timestamp r;
                      JOBS_TABLE.sent_data := JOBS_TABLE.sent_data r;
                      JOBS_TABLE.result_url := JOBS_TABLE.result_url r;
                      JOBS_TABLE.job_key := JOBS_TABLE.job_key r |}
              else r) <$> jobs d)
       (metadata d) (logs d))
    (connections e).

(** ** Notions used by the statements *)

(** Referential integrity: every metadata row and every log row belongs to a
    job of the [jobs] table (the foreign keys of the schema). *)
Definition fk_ok (d : database) : Prop :=
  (∀ r, r ∈ metadata d → METADATA_TABLE.job_id r ∈ job_ids d) ∧
  (∀ r, r ∈ logs d → LOGS_TABLE.job_id r ∈ job_ids d).

(** The primary keys are unique. *)
Definition pk_ok (d : database) : Prop :=
  NoDup (job_ids d) ∧ NoDup (metadata_keys d).

(** The states the two writing operations of the module lead to, from the
    state [init] leaves. *)
Inductive reachable : engine → Prop :=
| reachable_init : reachable init
| reachable_add now job_id job_key job_type api_key data metadata result_url e :
    reachable e →
    reachable (add_pending_job now job_id job_key job_type api_key
                 data metadata result_url e).1
| reachable_complete now job_id data e :
    reachable e →
    reachable (mark_job_as_completed now job_id data e).

(** The row [add_pending_job] inserts into [jobs]. *)
Definition pending_row (now : datetime)
    (job_id job_key job_type api_key sent_data : string) (result_url : pyval)
  : JOBS_TABLE.row :=
  {| JOBS_TABLE.job_id := job_id;
     JOBS_TABLE.job_type := PStr job_type;
     JOBS_TABLE.status := PStr "pending";
     JOBS_TABLE.data := PNone;
     JOBS_TABLE.error := PNone;
     JOBS_TABLE.requested_timestamp := PDateTime now;
     JOBS_TABLE.finished_timestamp := PNone;
     JOBS_TABLE.sent_data := PStr sent_data;
     JOBS_TABLE.result_url := result_url;
     JOBS_TABLE.api_key := PStr api_key;
     JOBS_TABLE.job_key := PStr job_key |}.

(** The record [get_job] builds for a job that is still pending. *)
Definition pending_record (now : datetime)
    (job_id job_key job_type api_key : string)
    (sent_data result_url : pyval) (md : gmap string pyval)
    (logs : list (gmap string pyval)) : gmap string pyval :=
  list_to_map
    [("job_id", PStr job_id); ("job_type", PStr job_type);
     ("status", PStr "pending"); ("data", PNone); ("error", PNone);
     ("requested_timestamp", PStr (Py.isoformat now));
     ("finished_timestamp", PNone); ("sent_data", sent_data);
     ("result_url", result_url); ("api_key", PStr api_key);
     ("job_key", PStr job_key); ("metadata", PDict md);
     ("logs", PList (PDict <$> logs))].

(** [data] and [metadata] after [if not data: data = {}]. *)
Definition or_empty_dict (v : pyval) : pyval :=
  if Py.truthy v then v else PDict ∅.

(** A terminal status: [complete] or [error]. *)
Definition terminal (status : pyval) : bool :=
  match status with
  | PStr s => String.eqb s "complete" || String.eqb s "error"
  | _ => false
  end.

(** A terminal job has no API key, and [finished_timestamp] is set exactly
    for the terminal jobs. *)
Definition job_invariant (r : JOBS_TABLE.row) : Prop :=
  (terminal (JOBS_TABLE.status r) = true → JOBS_TABLE.api_key r = PNone) ∧
  (JOBS_TABLE.finished_timestamp r ≠ PNone ↔
   terminal (JOBS_TABLE.status r) = true).

(** How [add_pending_job] stores a metadata value [v]: a string as it is with
    the tag [string], anything else as its JSON text with the tag [json]. *)
Definition stored_as (v : pyval) (r : METADATA_TABLE.row) : Prop :=
  match v with
  | PStr s =>
      METADATA_TABLE.value r = PStr s ∧ METADATA_TABLE.type r = PStr "string"
  | _ =>
      METADATA_TABLE.value r = PStr (Json.text v) ∧
      METADATA_TABLE.type r = PStr "json"
  end.

(** A metadata value the docstring of [add_pending_job] allows: a string or a
    JSON-encodable value. *)
Definition metadata_value_ok (v : pyval) : Prop :=
  Py.is_basestring v = true ∨ Json.encodable v = true.

(** The record of a log row once [job_id] is removed. *)
Definition log_record (r : LOGS_TABLE.row) : gmap string pyval :=
  list_to_map
    [("timestamp", LOGS_TABLE.timestamp r); ("message", LOGS_TABLE.message r);
     ("level", LOGS_TABLE.level r); ("module", LOGS_TABLE.module r);
     ("funcName", LOGS_TABLE.funcName r); ("lineno", LOGS_TABLE.lineno r)].

Definition timestamp_of (d : gmap string pyval) : option datetime :=
  match d !! "timestamp" with
  | Some (PDateTime t) => Some t
  | _ => None
  end.

(** The records are in ascending order of [timestamp]. *)
Fixpoint timestamps_ascending (l : list (gmap string pyval)) : bool :=
  match l with
  | a :: l' =>
      match l' with
      | b :: _ =>
          match timestamp_of a, timestamp_of b with
          | Some x, Some y => Py.datetime_leb x y
          | _, _ => true
          end
      | [] => true
      end && timestamps_ascending l'
  | [] => true
  end.

(** ** Sample values *)

Definition at_10_00_00 : datetime := DateTime 2014 11 4 10 0 0 0.
Definition at_10_00_05 : datetime := DateTime 2014 11 4 10 0 5 250.

(** [{"x": 1}] *)
Definition x_is_1 : pyval := PDict {["x" := PInt 1]}.

(** [{"a": "s", "b": [1, 2, 3]}] *)
Definition a_and_b : gmap string pyval :=
  {["a" := PStr "s"; "b" := PList [PInt 1; PInt 2; PInt 3]]}.

(** The engine after
    [add_pending_job("job-1", "key-1", "type-1", "api-1", {"x": 1}, {"a": "s", "b": [1, 2, 3]})]
    on a fresh database. *)
Definition one_job : engine :=
  (add_pending_job at_10_00_00 "job-1" "key-1" "type-1" "api-1"
     x_is_1 (PDict a_and_b) PNone init).1.

(** The same engine with two log rows of [job-1], the later one stored
    first. *)
Definition log_at (t : datetime) (message : string) : LOGS_TABLE.row :=
  {| LOGS_TABLE.job_id := "job-1";
     LOGS_TABLE.timestamp := PDateTime t;
     LOGS_TABLE.message := PStr message;
     LOGS_TABLE.level := PStr "INFO";
     LOGS_TABLE.module := PStr "jobs";
     LOGS_TABLE.funcName := PStr "run";
     LOGS_TABLE.lineno := PInt 42 |}.

Definition one_job_two_logs : engine :=
  Engine
    (Database (jobs (store one_job)) (metadata (store one_job))
       [log_at at_10_00_05 "second"; log_at at_10_00_00 "first"])
    0.

(** What [get_job("job-1")] returns on [one_job_two_logs]. *)
Definition one_job_two_logs_record : gmap string pyval :=
  pending_record at_10_00_00 "job-1" "key-1" "type-1" "api-1" x_is_1 PNone
    a_and_b
    [log_record (log_at at_10_00_05 "second");
     log_record (log_at at_10_00_00 "first")].

(** ** Notions used by the further statements *)

(** The record [get_job] builds for a job once [mark_job_as_completed] has
    run: [finished] is the time of the completion, [data] the decoded
    [data] cell. *)
Definition completed_record (now finished : datetime)
    (job_id job_key job_type : string)
    (sent_data result_url data : pyval) (md : gmap string pyval)
    (logs : list (gmap string pyval)) : gmap string pyval :=
  list_to_map
    [("job_id", PStr job_id); ("job_type", PStr job_type);
     ("status", PStr "complete"); ("data", data); ("error", PNone);
     ("requested_timestamp", PStr (Py.isoformat now));
     ("finished_timestamp", PStr (Py.isoformat finished));
     ("sent_data", sent_data); ("result_url", result_url);
     ("api_key", PNone); ("job_key", PStr job_key);
     ("metadata", PDict md); ("logs", PList (PDict <$> logs))].

(** A cell that holds the JSON text of some value. *)
Definition json_text_cell (c : pyval) : Prop :=
  ∃ v, Json.encodable v = true ∧ c = PStr (Json.text v).

(** A [data] argument of [mark_job_as_completed] that [get_job] can read
    back: [None] or a JSON text. *)
Definition completion_data_ok (data : pyval) : Prop :=
  data = PNone ∨ json_text_cell data.

(** A [data] argument every driver binds to the text column as it is:
    [None] (NULL) or a string. *)
Definition bound_as_given (data : pyval) : Prop :=
  data = PNone ∨ ∃ s, data = PStr s.

(** The characters a JSON text can start with, blanks apart: the quote, the
    brackets, the first letters of [null], [true], [false], [NaN] and
    [Infinity], the minus sign and the digits. *)
Definition json_first_char (c : ascii) : bool :=
  existsb (Ascii.eqb c)
    [Py.dquote; "{"; "["; "n"; "t"; "f"; "N"; "I"; "-"; "0"; "1"; "2"; "3";
     "4"; "5"; "6"; "7"; "8"; "9"]%char.

(** A text that is no JSON text whatever follows: its first character after
    the blanks cannot start one. *)
Definition not_json_text (s : string) : Prop :=
  match Json.skip_ws s with
  | EmptyString => False
  | String c _ => json_first_char c = false
  end.

(** Rows [get_job] can decode: the JSON columns of a job row are NULL or
    JSON texts, and a metadata row tagged [json] holds a JSON text. *)
Definition job_row_readable (r : JOBS_TABLE.row) : Prop :=
  json_text_cell (JOBS_TABLE.sent_data r) ∧
  JOBS_TABLE.error r = PNone ∧
  completion_data_ok (JOBS_TABLE.data r).

Definition metadata_row_readable (r : METADATA_TABLE.row) : Prop :=
  METADATA_TABLE.type r = PStr "json" → json_text_cell (METADATA_TABLE.value r).

Definition readable (d : database) : Prop :=
  Forall job_row_readable (jobs d) ∧ Forall metadata_row_readable (metadata d).

(** The states reached from [init] when every completion is given [None]
    or a JSON text as [data]. *)
Inductive reachable_encoded : engine → Prop :=
| reachable_encoded_init : reachable_encoded init
| reachable_encoded_add now job_id job_key job_type api_key data metadata
    result_url e :
    reachable_encoded e →
    reachable_encoded (add_pending_job now job_id job_key job_type api_key
                         data metadata result_url e).1
| reachable_encoded_complete now job_id data e :
    reachable_encoded e → completion_data_ok data →
    reachable_encoded (mark_job_as_completed now job_id data e).

(** The names of the columns of [jobs], as [result.keys()] lists them. *)
Definition jobs_columns : list string :=
  ["job_id"; "job_type"; "status"; "data"; "error"; "requested_timestamp";
   "finished_timestamp"; "sent_data"; "result_url"; "api_key"; "job_key"].

(** ** The module globals, [init] and [drop_all] *)

Module Globals.

(** The databases a URI can name; each holds the three tables once they
    are created, and nothing before. *)
Record state := State {
  ENGINE : option string;      (* the URI [ENGINE] is bound to, [None] before [init] *)
  _METADATA : option string;   (* the engine [_METADATA] is bound to *)
  databases : gmap string database;
  checked_out : nat
}.

(** The module as imported: no engine, no metadata. *)
Definition imported (dbs : gmap string database) : state :=
  State None None dbs 0.

(** [_METADATA.create_all(ENGINE)]: the tables are created if they do not
    exist already. *)
Definition create_all (uri : string) (dbs : gmap string database)
  : gmap string database :=
  match dbs !! uri with
  | Some _ => dbs
  | None => <[uri := Database [] [] []]> dbs
  end.

(** [init(uri)]. *)
Definition init (uri : string) (s : state) : state :=
  State (Some uri) (Some uri) (create_all uri (databases s)) (checked_out s).

(** [drop_all()]: nothing without [_METADATA]; else the tables of its
    engine are dropped. *)
Definition drop_all (s : state) : state :=
  match _METADATA s with
  | Some uri => State (ENGINE s) (_METADATA s) (delete uri (databases s))
                  (checked_out s)
  | None => s
  end.

(** What a call on the module can end with: [AttributeError] on the
    [None] engine, the database error for missing tables, or what the
    operation itself returns or raises. *)
Inductive outcome (A : Type) :=
| NoEngine
| NoTables
| Ran (r : result A).
Arguments NoEngine {A}.
Arguments NoTables {A}.
Arguments Ran {A} r.

(** What [ENGINE] gives access to. *)
Inductive binding :=
| Unbound                 (* [ENGINE] is [None] *)
| Dropped                 (* the tables do not exist *)
| Bound (e : engine).

Definition engine_of (s : state) : binding :=
  match ENGINE s with
  | None => Unbound
  | Some uri =>
      match databases s !! uri with
      | None => Dropped
      | Some d => Bound (Engine d (checked_out s))
      end
  end.

(** The state once an operation has left the engine as [e]. *)
Definition with_engine (s : state) (e : engine) : state :=
  match ENGINE s with
  | None => s
  | Some uri =>
      State (ENGINE s) (_METADATA s) (<[uri := store e]> (databases s))
        (connections e)
  end.

(** [get_job], [add_pending_job] and [mark_job_as_completed] as calls on
    the module. *)
Definition get_job (job_id : string) (s : state)
  : outcome (option (gmap string pyval)) :=
  match engine_of s with
  | Bound e => Ran (get_job job_id e)
  | Unbound => NoEngine
  | Dropped => NoTables
  end.

Definition add_pending_job (now : datetime)
    (job_id job_key job_type api_key : string)
    (data metadata result_url : pyval) (s : state) : state * outcome unit :=
  match engine_of s with
  | Bound e =>
      let '(e', r) := add_pending_job now job_id job_key job_type api_key
                        data metadata result_url e in
      (with_engine s e', Ran r)
  | Unbound => (s, NoEngine)
  | Dropped =>
      (* [json.dumps(data)] is evaluated before the insert is executed *)
      match Json.dumps (or_empty_dict data) with
      | Ok _ => (s, NoTables)
      | Raise x => (s, Ran (Raise x))
      end
  end.

Definition mark_job_as_completed (now : datetime) (job_id : string)
    (data : pyval) (s : state) : state * outcome unit :=
  match engine_of s with
  | Bound e =>
      (with_engine s (mark_job_as_completed now job_id data e), Ran (Ok tt))
  | Unbound => (s, NoEngine)
  | Dropped => (s, NoTables)
  end.

End Globals.

(** ** Further sample values *)

(** [one_job] with one more metadata row of [job-1], tagged [json], whose
    value is not JSON. *)
Definition one_job_corrupt_row : METADATA_TABLE.row :=
  {| METADATA_TABLE.job_id := "job-1";
     METADATA_TABLE.key := "c";
     METADATA_TABLE.value := PStr "oops";
     METADATA_TABLE.type := PStr "json" |}.

Definition one_job_corrupt : engine :=
  Engine
    (Database (jobs (store one_job))
       (metadata (store one_job) ++ [one_job_corrupt_row]) [])
    0.

(** [one_job] and a second job, [job-2], created without data or metadata. *)
Definition two_jobs : engine :=
  (add_pending_job at_10_00_05 "job-2" "key-2" "type-2" "api-2"
     PNone PNone PNone one_job).1.

(** A module that was not initialised yet, with the tables of [one_job]
    already in the database of the URI. *)
Definition jobs_uri : string := "sqlite:////tmp/job_store.db".

Definition restarted : Globals.state :=
  Globals.imported {[jobs_uri := store one_job]}.

(** * Proofs *)

(** ** Strings *)

Lemma string_app_cons (x : ascii) (a b : string) :
  String x a +:+ b = String x (a +:+ b).
Proof. reflexivity. Qed.

Lemma string_app_nil_l (a : string) : "" +:+ a = a.
Proof. reflexivity. Qed.

Lemma string_app_assoc (a b c : string) : (a +:+ b) +:+ c = a +:+ (b +:+ c).
Proof.
  induction a as [|x a IH]; [done|].
  by rewrite !string_app_cons, IH.
Qed.

Lemma string_app_length (a b : string) :
  String.length (a +:+ b) = String.length a + String.length b.
Proof.
  induction a as [|x a IH]; [done|].
  rewrite string_app_cons. simpl. by rewrite IH.
Qed.

Lemma string_app_nil_r (a : string) : a +:+ "" = a.
Proof.
  induction a as [|x a IH]; [done|].
  by rewrite string_app_cons, IH.
Qed.

Lemma concat_cons (sep x : string) (l : list string) :
  String.concat sep (x :: l) =
  match l with [] => x | _ :: _ => x +:+ sep +:+ String.concat sep l end.
Proof. by destruct l. Qed.

(** ** The JSON codec: [loads] inverts [dumps] *)

Module JsonFacts.
Import Py Json.

Lemma scanstring_escape_char (c : ascii) (X : string) :
  scanstring (escape_char c +:+ X) =
  '(x, r) ← scanstring X; Some (String c x, r).
Proof.
  destruct c as [[] [] [] [] [] [] [] []]; reflexivity.
Qed.

Lemma scanstring_escape (s rest : string) :
  scanstring (escape s +:+ String dquote rest) = Some (s, rest).
Proof.
  induction s as [|c s IH]; [done|].
  cbn [escape]. rewrite string_app_assoc, scanstring_escape_char, IH. done.
Qed.

(** *** Numbers *)

Lemma read_digits_no_digit (rest : string) :
  no_digit_head rest → read_digits rest = (Decimal.Nil, rest).
Proof. destruct rest as [|c r]; simpl; [done|]. by intros ->. Qed.

Lemma read_digits_string_of_uint (d : Decimal.uint) (rest : string) :
  no_digit_head rest →
  read_digits (NilEmpty.string_of_uint d +:+ rest) = (d, rest).
Proof.
  intros Hr.
  induction d; cbn [NilEmpty.string_of_uint];
    rewrite ?string_app_cons, ?string_app_nil_l;
    [by apply read_digits_no_digit | ..];
    cbn [read_digits]; by rewrite IHd.
Qed.

Lemma unorm_to_uint (n : N) : Decimal.unorm (N.to_uint n) = N.to_uint n.
Proof.
  rewrite <- (DecimalN.Unsigned.of_to n) at 2.
  by rewrite DecimalN.Unsigned.to_of.
Qed.

Lemma scan_nat_digits (n : N) (rest : string) :
  no_digit_head rest → scan_nat (digits n +:+ rest) = Some (n, rest).
Proof.
  intros Hr. unfold scan_nat, digits.
  rewrite read_digits_string_of_uint by done.
  rewrite unorm_to_uint, Decimal.internal_uint_dec_lb by done.
  by rewrite DecimalN.Unsigned.of_to.
Qed.

Lemma digits_head (n : N) (rest : string) :
  ∃ c r, digits n +:+ rest = String c r ∧ digit_of_char c ≠ None.
Proof.
  unfold digits.
  assert (N.to_uint n ≠ Decimal.Nil) as Hn.
  { destruct n; [done|]. apply DecimalPos.Unsigned.to_uint_nonnil. }
  destruct (N.to_uint n); [done|..];
    cbn [NilEmpty.string_of_uint]; rewrite string_app_cons;
    eexists _, _; (split; [reflexivity | done]).
Qed.

Lemma digit_not_minus (c : ascii) (r : string) :
  digit_of_char c ≠ None → strip_prefix "-" (String c r) = None.
Proof.
  intros Hc. cbn [strip_prefix].
  destruct (Ascii.eqb_spec "-" c) as [<-|]; [by destruct Hc | done].
Qed.

Lemma scan_number_str_int (z : Z) (rest : string) :
  no_digit_head rest → scan_number (str_int z +:+ rest) = Some (PInt z, rest).
Proof.
  intros Hr. unfold scan_number, str_int. destruct z as [|p|p].
  - change ("0" +:+ rest) with (digits 0 +:+ rest).
    destruct (digits_head 0 rest) as (c & r & E & Hc).
    rewrite E, digit_not_minus, <- E, scan_nat_digits by done. done.
  - destruct (digits_head (Npos p) rest) as (c & r & E & Hc).
    rewrite E, digit_not_minus, <- E, scan_nat_digits by done. done.
  - rewrite string_app_assoc, string_app_cons, string_app_nil_l.
    cbn [strip_prefix]. rewrite Ascii.eqb_refl.
    rewrite scan_nat_digits by done. done.
Qed.

Lemma scan_once_number (n : nat) (s : string) :
  number_head s → scan_once (S n) s = scan_number s.
Proof.
  destruct s as [|c s]; [done|]. intros [Hc | ->]; [|done].
  destruct c as [[] [] [] [] [] [] [] []];
    try (exfalso; apply Hc; reflexivity); reflexivity.
Qed.

Lemma str_int_number_head (z : Z) (rest : string) :
  number_head (str_int z +:+ rest).
Proof.
  unfold str_int. destruct z as [|p|p].
  - by left.
  - destruct (digits_head (Npos p) rest) as (c & r & -> & Hc). by left.
  - by right.
Qed.

(** *** Values *)

Lemma text_PList (l : list pyval) :
  text (PList l) = "[" +:+ elems_text l +:+ "]".
Proof. reflexivity. Qed.

Lemma text_PDict (d : gmap string pyval) :
  text (PDict d) = "{" +:+ members_text (map_to_list d) +:+ "}".
Proof.
  unfold members_text. rewrite <- map_to_list_fmap. reflexivity.
Qed.

Lemma encodable_PDict (d : gmap string pyval) :
  encodable (PDict d) = forallb (λ kv, encodable kv.2) (map_to_list d).
Proof.
  cbn [encodable]. rewrite map_to_list_fmap.
  induction (map_to_list d) as [|[k v] l IH]; [done|].
  cbn. by rewrite IH.
Qed.

Lemma head_ok_skip_ws (s : string) : head_ok s → skip_ws s = s.
Proof.
  destruct s as [|c s]; [done|]. unfold head_ok, value_start. cbn [skip_ws].
  destruct (is_ws c); [done | done].
Qed.

Lemma head_ok_not_close (p : ascii) (s : string) :
  p = "]"%char ∨ p = "}"%char → head_ok s →
  strip_prefix (String p "") s = None.
Proof.
  destruct s as [|c s]; [done|]. unfold head_ok, value_start.
  cbn [strip_prefix]. rewrite (Ascii.eqb_sym p c).
  intros [-> | ->] H; destruct (Ascii.eqb c "]"), (Ascii.eqb c "}");
    try done; by rewrite !andb_false_r in H.
Qed.

Lemma number_head_ok (s : string) : number_head s → head_ok s.
Proof.
  destruct s as [|c s]; [done|]. intros [Hc | ->]; [|done].
  destruct c as [[] [] [] [] [] [] [] []];
    try (exfalso; apply Hc; reflexivity); reflexivity.
Qed.

Lemma text_head (v : pyval) (rest : string) :
  encodable v = true → head_ok (text v +:+ rest).
Proof.
  destruct v as [|[]|z|s|t|l|d]; try done.
  intros _. apply number_head_ok, str_int_number_head.
Qed.

Lemma dict_of_pairs_snoc (l : list (string * pyval)) (k : string) (v : pyval) :
  dict_of_pairs (l ++ [(k, v)]) = <[k := v]> (dict_of_pairs l).
Proof. unfold dict_of_pairs. by rewrite foldl_snoc. Qed.

Lemma dict_of_pairs_NoDup (l : list (string * pyval)) :
  NoDup l.*1 → dict_of_pairs l = list_to_map l.
Proof.
  induction l as [|[k v] l IH] using rev_ind; [done|].
  rewrite fmap_app, NoDup_app. intros (Hl & Hk & _).
  rewrite dict_of_pairs_snoc, IH by done.
  apply map_eq. intros i.
  destruct (decide (i = k)) as [->|Hne].
  - rewrite lookup_insert_eq. symmetry.
    apply elem_of_list_to_map_1.
    + rewrite fmap_app. apply NoDup_app. split_and!; [done| |].
      * intros x Hx Hx'. apply (Hk x Hx Hx').
      * apply NoDup_singleton.
    + apply elem_of_app. right. by apply list_elem_of_singleton.
  - rewrite lookup_insert_ne by done.
    destruct (list_to_map l !! i) as [x|] eqn:E.
    + symmetry. apply elem_of_list_to_map_1.
      * rewrite fmap_app. apply NoDup_app. split_and!; [done| |].
        -- intros y Hy Hy'. apply (Hk y Hy Hy').
        -- apply NoDup_singleton.
      * apply elem_of_app. left. by apply elem_of_list_to_map_2.
    + symmetry. apply not_elem_of_list_to_map_1.
      rewrite fmap_app. intros [Hi | Hi]%elem_of_app.
      * by apply not_elem_of_list_to_map_2 in E.
      * apply list_elem_of_singleton in Hi. done.
Qed.

Lemma dict_of_pairs_map_to_list (d : gmap string pyval) :
  dict_of_pairs (map_to_list d) = d.
Proof.
  rewrite dict_of_pairs_NoDup by apply NoDup_fst_map_to_list.
  apply list_to_map_to_list.
Qed.

Lemma elems_text_cons (v : pyval) (l : list pyval) :
  elems_text (v :: l) =
  match l with
  | [] => text v
  | _ :: _ => text v +:+ ", " +:+ elems_text l
  end.
Proof. unfold elems_text. rewrite fmap_cons, concat_cons. by destruct l. Qed.

Lemma members_text_cons (k : string) (v : pyval) (l : list (string * pyval)) :
  members_text ((k, v) :: l) =
  match l with
  | [] => encode_basestring_ascii k +:+ ": " +:+ text v
  | _ :: _ =>
      (encode_basestring_ascii k +:+ ": " +:+ text v) +:+ ", " +:+ members_text l
  end.
Proof. unfold members_text. rewrite !fmap_cons, concat_cons. by destruct l. Qed.

Lemma text_length_pos (v : pyval) :
  encodable v = true → 0 < String.length (text v).
Proof.
  intros Hv. pose proof (text_head v "" Hv) as H.
  rewrite string_app_nil_r in H.
  destruct (text v); [done | simpl; lia].
Qed.

Lemma skip_ws_space (s : string) : skip_ws (String " " s) = skip_ws s.
Proof. reflexivity. Qed.

Ltac str_norm :=
  repeat (rewrite string_app_assoc || rewrite string_app_cons
          || rewrite string_app_nil_l).

(** One step of each scanner, on a text of the shape [dumps] produces. *)
Lemma scan_once_string (n : nat) (r x rest : string) :
  scanstring r = Some (x, rest) →
  scan_once (S n) (String dquote r) = Some (PStr x, rest).
Proof.
  intros H. cbn [scan_once].
  change (Ascii.eqb dquote dquote) with true. cbv iota. by rewrite H.
Qed.

Lemma scan_once_array (n : nat) (X rest : string) (l : list pyval) :
  head_ok X → JSONArray n X = Some (l, rest) →
  scan_once (S n) (String "[" X) = Some (PList l, rest).
Proof.
  intros Hh H. cbn [scan_once].
  change (Ascii.eqb "[" dquote) with false.
  change (Ascii.eqb "[" "{") with false.
  change (Ascii.eqb "[" "[") with true. cbv iota.
  rewrite head_ok_skip_ws, head_ok_not_close, H by auto. done.
Qed.

Lemma scan_once_object (n : nat) (r rest : string)
    (kvs : list (string * pyval)) :
  JSONObject n (String dquote r) = Some (kvs, rest) →
  scan_once (S n) (String "{" (String dquote r))
  = Some (PDict (dict_of_pairs kvs), rest).
Proof.
  intros H. cbn [scan_once].
  change (Ascii.eqb "{" dquote) with false.
  change (Ascii.eqb "{" "{") with true. cbv iota.
  change (skip_ws (String dquote r)) with (String dquote r).
  change (strip_prefix "}" (String dquote r)) with (@None string).
  cbv iota. by rewrite H.
Qed.

Lemma JSONArray_last (n : nat) (s rest : string) (v : pyval) :
  scan_once n s = Some (v, String "]" rest) →
  JSONArray (S n) s = Some ([v], rest).
Proof. intros H. cbn [JSONArray]. by rewrite H. Qed.

Lemma JSONArray_more (n : nat) (s X rest : string) (v : pyval)
    (l : list pyval) :
  scan_once n s = Some (v, String "," (String " " X)) →
  JSONArray n (skip_ws X) = Some (l, rest) →
  JSONArray (S n) s = Some (v :: l, rest).
Proof. intros H H'. cbn [JSONArray]. rewrite H. simpl. by rewrite H'. Qed.

Lemma JSONObject_last (n : nat) (r Y rest k : string) (v : pyval) :
  scanstring r = Some (k, String ":" (String " " Y)) →
  scan_once n (skip_ws Y) = Some (v, String "}" rest) →
  JSONObject (S n) (String dquote r) = Some ([(k, v)], rest).
Proof.
  intros H H'. cbn [JSONObject]. simpl. rewrite H. simpl. by rewrite H'.
Qed.

Lemma JSONObject_more (n : nat) (r Y Z rest k : string) (v : pyval)
    (kvs : list (string * pyval)) :
  scanstring r = Some (k, String ":" (String " " Y)) →
  scan_once n (skip_ws Y) = Some (v, String "," (String " " Z)) →
  JSONObject n (skip_ws Z) = Some (kvs, rest) →
  JSONObject (S n) (String dquote r) = Some ((k, v) :: kvs, rest).
Proof.
  intros H H' H''. cbn [JSONObject]. simpl. rewrite H. simpl.
  rewrite H'. simpl. by rewrite H''.
Qed.

Lemma elems_head_ok (l : list pyval) (rest : string) :
  l ≠ [] → forallb encodable l = true → head_ok (elems_text l +:+ rest).
Proof.
  destruct l as [|v l]; [done|]. intros _ [Hv _]%andb_prop.
  rewrite elems_text_cons.
  destruct l; rewrite ?string_app_assoc; by apply text_head.
Qed.

(** Scanning the text of a value gives the value back, whatever follows
    (a digit must not follow a number), with fuel the length of the text. *)
Lemma scan_text (n : nat) :
  (∀ v rest, encodable v = true → no_digit_head rest →
     String.length (text v) ≤ n →
     scan_once n (text v +:+ rest) = Some (v, rest)) ∧
  (∀ l rest, l ≠ [] → forallb encodable l = true →
     String.length (elems_text l) < n →
     JSONArray n (elems_text l +:+ String "]" rest) = Some (l, rest)) ∧
  (∀ kvs rest, kvs ≠ [] → forallb (λ kv, encodable kv.2) kvs = true →
     String.length (members_text kvs) < n →
     JSONObject n (members_text kvs +:+ String "}" rest) = Some (kvs, rest)).
Proof.
  induction n as [|n (IHv & IHa & IHo)].
  { split_and!; [|intros; lia..].
    intros v rest Hv _ Hn. pose proof (text_length_pos v Hv). lia. }
  split_and!.
  - intros v rest Hv Hr Hn. destruct v as [|[]|z|s|t|l|d]; try done.
    + cbn [text]. rewrite scan_once_number by apply str_int_number_head.
      by apply scan_number_str_int.
    + cbn [text]. unfold encode_basestring_ascii. str_norm.
      apply scan_once_string, scanstring_escape.
    + rewrite text_PList in Hn |- *. str_norm.
      rewrite !string_app_length in Hn. cbn [String.length] in Hn.
      destruct l as [|v l]; [done|]. cbn [encodable] in Hv.
      apply scan_once_array; [by apply elems_head_ok|].
      apply IHa; [done..|lia].
    + rewrite text_PDict in Hn |- *. str_norm.
      rewrite !string_app_length in Hn. cbn [String.length] in Hn.
      rewrite encodable_PDict in Hv.
      destruct (map_to_list d) as [|[k v] kvs] eqn:E.
      { apply map_to_list_empty_iff in E as ->. done. }
      assert (∃ r, members_text ((k, v) :: kvs) +:+ String "}" rest
                   = String dquote r) as [r Er].
      { rewrite members_text_cons. unfold encode_basestring_ascii.
        destruct kvs; str_norm; eauto. }
      rewrite <- (dict_of_pairs_map_to_list d), E, Er.
      apply scan_once_object. rewrite <- Er.
      apply IHo; [done..|lia].
  - intros l rest Hl Hv Hn. destruct l as [|v l]; [done|]. clear Hl.
    cbn [forallb] in Hv. apply andb_prop in Hv as [Hv Hvs].
    rewrite elems_text_cons in Hn |- *.
    destruct l as [|v' l].
    + apply JSONArray_last, IHv; [done..|lia].
    + rewrite !string_app_length in Hn. cbn [String.length] in Hn.
      str_norm. eapply JSONArray_more.
      * apply IHv; [done..|lia].
      * rewrite head_ok_skip_ws by (by apply elems_head_ok).
        apply IHa; [done..|lia].
  - intros kvs rest Hl Hv Hn. destruct kvs as [|[k v] kvs]; [done|]. clear Hl.
    cbn [forallb] in Hv. apply andb_prop in Hv as [Hv Hvs]. cbn [snd] in Hv.
    rewrite members_text_cons in Hn |- *. unfold encode_basestring_ascii in *.
    destruct kvs as [|kv kvs].
    + rewrite !string_app_length in Hn. cbn [String.length] in Hn.
      rewrite !string_app_length in Hn. cbn [String.length] in Hn.
      str_norm. eapply JSONObject_last; [apply scanstring_escape|].
      rewrite head_ok_skip_ws by (by apply text_head).
      apply IHv; [done..|lia].
    + rewrite !string_app_length in Hn. cbn [String.length] in Hn.
      rewrite !string_app_length in Hn. cbn [String.length] in Hn.
      str_norm. eapply JSONObject_more; [apply scanstring_escape| |].
      * rewrite head_ok_skip_ws by (by apply text_head).
        apply IHv; [done..|lia].
      * assert (∃ r, members_text (kv :: kvs) +:+ String "}" rest
                     = String dquote r) as [r Er].
        { destruct kv as [k' v']. rewrite members_text_cons.
          unfold encode_basestring_ascii. destruct kvs; str_norm; eauto. }
        rewrite Er. change (skip_ws (String dquote r)) with (String dquote r).
        rewrite <- Er. apply IHo; [done..|lia].
Qed.

(** [json.loads(json.dumps(v)) == v] for every serializable [v]. *)
Lemma loads_dumps (v : pyval) (s : string) :
  dumps v = Ok s → loads (PStr s) = Ok v.
Proof.
  unfold dumps. destruct (encodable v) eqn:Hv; [|done].
  intros [= <-]. unfold loads.
  pose proof (text_head v "" Hv) as Hh. rewrite string_app_nil_r in Hh.
  rewrite head_ok_skip_ws by done.
  destruct (scan_text (String.length (text v))) as (H & _ & _).
  specialize (H v "" Hv I (le_n _)). rewrite string_app_nil_r in H.
  by rewrite H.
Qed.
End JsonFacts.

(** ** Statements on the tables *)

Section statements.
Implicit Types (d : database) (t : txn) (e : engine).

Lemma has_job_false job_id d :
  has_job job_id d = false ↔ job_id ∉ job_ids d.
Proof. unfold has_job. by rewrite bool_decide_eq_false. Qed.

Lemma has_job_true job_id d :
  has_job job_id d = true ↔ job_id ∈ job_ids d.
Proof. unfold has_job. by rewrite bool_decide_eq_true. Qed.

Lemma select_job_None job_id d :
  job_id ∉ job_ids d → select_job job_id d = None.
Proof.
  unfold select_job, job_ids. induction (jobs d) as [|r l IH]; [done|].
  rewrite fmap_cons, not_elem_of_cons. intros [Hne Hl].
  rewrite filter_cons_False by done. by apply IH.
Qed.

Lemma filter_job_ids_nil job_id (l : list JOBS_TABLE.row) :
  job_id ∉ JOBS_TABLE.job_id <$> l →
  filter (λ r, JOBS_TABLE.job_id r = job_id) l = [].
Proof.
  induction l as [|r l IH]; [done|].
  rewrite fmap_cons, not_elem_of_cons. intros [Hne Hl].
  rewrite filter_cons_False by done. by apply IH.
Qed.

Lemma select_job_new (l : list JOBS_TABLE.row) r md lg :
  JOBS_TABLE.job_id r ∉ JOBS_TABLE.job_id <$> l →
  select_job (JOBS_TABLE.job_id r) (Database (l ++ [r]) md lg) = Some r.
Proof.
  intros H. unfold select_job. cbn [jobs].
  rewrite filter_app, filter_job_ids_nil by done.
  by rewrite filter_cons_True.
Qed.

Lemma select_job_is_Some job_id d :
  job_id ∈ job_ids d →
  ∃ r, select_job job_id d = Some r ∧ r ∈ jobs d ∧ JOBS_TABLE.job_id r = job_id.
Proof.
  unfold select_job, job_ids. induction (jobs d) as [|r l IH]; [by intros ?%elem_of_nil|].
  rewrite fmap_cons.
  destruct (decide (JOBS_TABLE.job_id r = job_id)) as [E|E].
  - intros _. rewrite filter_cons_True by done. exists r.
    split_and!; [done | by left | done].
  - rewrite filter_cons_False by done. intros [?|H]%elem_of_cons; [done|].
    destruct (IH H) as (r' & ? & ? & ?). exists r'. split_and!; [done| by right | done].
Qed.

(** The statements of a transaction never touch what is committed. *)
Lemma insert_metadata_spec rows t :
  committed (insert_metadata rows t).1 = committed t ∧
  match (insert_metadata rows t).2 with
  | Ok _ =>
      working (insert_metadata rows t).1 =
      Database (jobs (working t)) (metadata (working t) ++ rows)
        (logs (working t))
  | Raise x => x = IntegrityError
  end.
Proof.
  revert t. induction rows as [|r rows IH]; intros t.
  { cbn. rewrite app_nil_r. by destruct (working t). }
  cbn [insert_metadata]. unfold mbind, conn_op_bind, bind, insert_metadata_row.
  destruct (has_metadata _ _ _); [done|]. cbn [fst snd].
  destruct (IH (Txn (committed t)
    (Database (jobs (working t)) (metadata (working t) ++ [r])
       (logs (working t))))) as [Hc Hr].
  destruct (insert_metadata rows _) as [t' [[]|x]]; simpl in *; [|done].
  split; [done|]. by rewrite Hr, <- app_assoc.
Qed.

(** [add_pending_job], one failure point after the other. *)
Lemma add_pending_job_unfold now job_id job_key job_type api_key
    data meta result_url e :
  add_pending_job now job_id job_key job_type api_key data meta
    result_url e =
  match Json.dumps (or_empty_dict data) with
  | Raise x => (e, Raise x)
  | Ok sent_data =>
      if has_job job_id (store e) then (e, Raise IntegrityError)
      else
        match py_items (or_empty_dict meta) with
        | Raise x => (e, Raise x)
        | Ok items =>
            match metadata_inserts job_id items with
            | Raise x => (e, Raise x)
            | Ok inserts =>
                let r :=
                  insert_metadata inserts
                    (Txn (store e)
                       (Database
                          (jobs (store e) ++
                           [pending_row now job_id job_key job_type api_key
                              sent_data result_url])
                          (metadata (store e)) (logs (store e)))) in
                match r.2 with
                | Ok _ => (Engine (working r.1) (connections e), Ok tt)
                | Raise x => (e, Raise x)
                end
            end
        end
  end.
Proof.
  destruct e as [d n].
  unfold add_pending_job, add_pending_job_body, try_except_reraise,
    or_empty_dict, begin, connect, close, rollback, commit, lift.
  unfold mbind, conn_op_bind, bind, insert_job. cbn [store connections working committed fst snd].
  destruct (Json.dumps _) as [sent|x]; [|done].
  cbn [JOBS_TABLE.job_id].
  destruct (has_job job_id d); [done|].
  destruct (py_items _) as [items|x]; [|done].
  destruct (metadata_inserts job_id items) as [inserts|x]; [|done].
  fold (pending_row now job_id job_key job_type api_key sent result_url).
  set (t0 := Txn d _).
  assert (match inserts with [] => ret tt | _ :: _ => insert_metadata inserts end
          = insert_metadata inserts) as -> by (by destruct inserts).
  destruct (insert_metadata_spec inserts t0) as [Hc Hw].
  destruct (insert_metadata inserts t0) as [t' [[]|x]]; cbn [fst snd pred] in *.
  - done.
  - by rewrite Hc.
Qed.

(** What [add_pending_job] returns or raises is what the body of its [try]
    returns or raises. *)
Lemma add_pending_job_result now job_id job_key job_type api_key
    data meta result_url e :
  (add_pending_job now job_id job_key job_type api_key data meta
     result_url e).2 =
  (add_pending_job_body now job_id job_key job_type api_key
     (or_empty_dict data) (or_empty_dict meta) result_url
     (begin (connect e))).2.
Proof.
  unfold add_pending_job, try_except_reraise. fold (or_empty_dict data).
  fold (or_empty_dict meta).
  by destruct (add_pending_job_body _ _ _ _ _ _ _ _ _) as [t' [[]|x]].
Qed.

Lemma metadata_inserts_spec job_id items inserts :
  metadata_inserts job_id items = Ok inserts →
  Forall2 (λ kv r, METADATA_TABLE.job_id r = job_id ∧
                   METADATA_TABLE.key r = kv.1 ∧ stored_as kv.2 r)
    items inserts.
Proof.
  revert inserts. induction items as [|[k v] items IH]; intros inserts.
  { intros [= <-]. constructor. }
  cbn [metadata_inserts]. unfold mbind, result_mbind, result_bind.
  destruct (Py.is_basestring v) eqn:Hs.
  - destruct (metadata_inserts job_id items) as [rows|x]; [|done].
    intros [= <-]. constructor; [|by apply IH].
    destruct v; try done; by cbn.
  - unfold Json.dumps. destruct (Json.encodable v); [|done].
    destruct (metadata_inserts job_id items) as [rows|x]; [|done].
    intros [= <-]. constructor; [|by apply IH].
    destruct v; try done; by cbn.
Qed.
End statements.

(** The two outcomes of [add_pending_job]. *)
Lemma add_pending_job_cases now job_id job_key job_type api_key
    data meta result_url e :
  let run := add_pending_job now job_id job_key job_type api_key data meta
               result_url e in
  connections run.1 = connections e ∧
  match run.2 with
  | Ok _ =>
      ∃ sent_data items inserts,
        Json.dumps (or_empty_dict data) = Ok sent_data ∧
        py_items (or_empty_dict meta) = Ok items ∧
        Forall2 (λ kv r, METADATA_TABLE.job_id r = job_id ∧
                         METADATA_TABLE.key r = kv.1 ∧ stored_as kv.2 r)
          items inserts ∧
        store run.1 =
        Database
          (jobs (store e) ++
           [pending_row now job_id job_key job_type api_key sent_data
              result_url])
          (metadata (store e) ++ inserts) (logs (store e))
  | Raise x =>
      store run.1 = store e ∧
      (add_pending_job_body now job_id job_key job_type api_key
         (or_empty_dict data) (or_empty_dict meta) result_url
         (begin (connect e))).2 = Raise x
  end.
Proof.
  intros run.
  pose proof (add_pending_job_result now job_id job_key job_type api_key
                data meta result_url e) as Hres. fold run in Hres.
  revert Hres. unfold run. clear run. rewrite add_pending_job_unfold.
  destruct (Json.dumps _) as [sent|x] eqn:Hd; [|by intros <-].
  destruct (has_job job_id (store e)); [by intros <-|].
  destruct (py_items _) as [items|x] eqn:Hi; [|by intros <-].
  destruct (metadata_inserts job_id items) as [inserts|x] eqn:Hm; [|by intros <-].
  cbn zeta.
  destruct (insert_metadata_spec inserts
    (Txn (store e)
       (Database
          (jobs (store e) ++
           [pending_row now job_id job_key job_type api_key sent result_url])
          (metadata (store e)) (logs (store e))))) as [_ Hw].
  destruct (insert_metadata inserts _) as [t' [[]|x]]; cbn [fst snd] in *;
    [|by intros <-].
  intros _. split; [done|]. exists sent, items, inserts.
  split_and!; [done | done | by apply metadata_inserts_spec | done].
Qed.

(** C1: [add_pending_job] commits the job row and all its metadata rows
    together or changes nothing: when it returns, the committed database is
    the old one plus the job row and one metadata row per metadata pair;
    when it raises, the committed database is the old one and the exception
    is the one the body of the [try] raised; either way the connection it
    opened is closed again. *)
Theorem add_pending_job_atomic now job_id job_key job_type api_key
    data meta result_url e :
  let run := add_pending_job now job_id job_key job_type api_key data meta
               result_url e in
  connections run.1 = connections e ∧
  match run.2 with
  | Ok _ =>
      ∃ sent_data items inserts,
        Json.dumps (or_empty_dict data) = Ok sent_data ∧
        py_items (or_empty_dict meta) = Ok items ∧
        Forall2 (λ kv r, METADATA_TABLE.job_id r = job_id ∧
                         METADATA_TABLE.key r = kv.1 ∧ stored_as kv.2 r)
          items inserts ∧
        store run.1 =
        Database
          (jobs (store e) ++
           [pending_row now job_id job_key job_type api_key sent_data
              result_url])
          (metadata (store e) ++ inserts) (logs (store e))
  | Raise x =>
      store run.1 = store e ∧
      (add_pending_job_body now job_id job_key job_type api_key
         (or_empty_dict data) (or_empty_dict meta) result_url
         (begin (connect e))).2 = Raise x
  end.
Proof. apply add_pending_job_cases. Qed.

Lemma or_empty_dict_encodable data :
  Json.encodable data = true → Json.encodable (or_empty_dict data) = true.
Proof. unfold or_empty_dict. by destruct (Py.truthy data). Qed.


Lemma or_empty_dict_PDict (d : gmap string pyval) :
  or_empty_dict (PDict d) = PDict d.
Proof.
  unfold or_empty_dict. cbn [Py.truthy].
  case_bool_decide as H; [by rewrite H | done].
Qed.

(** A new job row is in the table after a call that returns. *)
Lemma add_pending_job_Ok now job_id job_key job_type api_key
    data meta result_url e :
  (add_pending_job now job_id job_key job_type api_key data meta
     result_url e).2 = Ok tt →
  (job_id ∉ job_ids (store e)) ∧
  ∃ sent_data inserts,
    Json.dumps (or_empty_dict data) = Ok sent_data ∧
    (∃ items, py_items (or_empty_dict meta) = Ok items ∧
              metadata_inserts job_id items = Ok inserts) ∧
    store (add_pending_job now job_id job_key job_type api_key data meta
             result_url e).1 =
    Database
      (jobs (store e) ++
       [pending_row now job_id job_key job_type api_key sent_data result_url])
      (metadata (store e) ++ inserts) (logs (store e)).
Proof.
  rewrite add_pending_job_unfold.
  destruct (Json.dumps _) as [sent|x] eqn:Hd; [|done].
  destruct (has_job job_id (store e)) eqn:Hj; [done|].
  destruct (py_items _) as [items|x] eqn:Hi; [|done].
  destruct (metadata_inserts job_id items) as [inserts|x] eqn:Hm; [|done].
  cbn zeta.
  destruct (insert_metadata_spec inserts
    (Txn (store e)
       (Database
          (jobs (store e) ++
           [pending_row now job_id job_key job_type api_key sent result_url])
          (metadata (store e)) (logs (store e))))) as [_ Hw].
  destruct (insert_metadata inserts _) as [t' [[]|x]]; cbn [fst snd] in *;
    [|done].
  intros _. split; [by apply has_job_false|].
  exists sent, inserts. split_and!; [done | by exists items | done].
Qed.

(** C4: once [add_pending_job] has returned for a [job_id], a second call
    with that [job_id] (and JSON-encodable data) raises [IntegrityError] and
    leaves the engine, hence every row of the first call, as it was. *)
Theorem add_pending_job_duplicate now job_id job_key job_type api_key
    data meta result_url now' job_key' job_type' api_key'
    data' meta' result_url' e :
  let e1 := (add_pending_job now job_id job_key job_type api_key data meta
               result_url e).1 in
  (add_pending_job now job_id job_key job_type api_key data meta
     result_url e).2 = Ok tt →
  Json.encodable data' = true →
  add_pending_job now' job_id job_key' job_type' api_key' data' meta'
    result_url' e1 = (e1, Raise IntegrityError).
Proof.
  intros e1 Hok Hd'. subst e1.
  apply add_pending_job_Ok in Hok as (_ & sent & inserts & _ & _ & Hst).
  rewrite add_pending_job_unfold.
  unfold Json.dumps at 1. rewrite or_empty_dict_encodable by done.
  assert (has_job job_id
            (store (add_pending_job now job_id job_key job_type api_key
                      data meta result_url e).1) = true) as ->; [|done].
  apply has_job_true. rewrite Hst. unfold job_ids. cbn [jobs].
  rewrite fmap_app. apply elem_of_app. right. by apply list_elem_of_singleton.
Qed.

(** C6: [get_job] on a [job_id] that has no row returns [None]; it does not
    raise. *)
Theorem get_job_missing job_id e :
  job_id ∉ job_ids (store e) → get_job job_id e = Ok None.
Proof. intros H. unfold get_job. by rewrite select_job_None. Qed.

(** C8: [mark_job_as_completed] on a [job_id] that has no row, with a
    [data] the driver binds as it is ([None] or a string), changes nothing:
    the update matches no row and the engine is left as it was. *)
Theorem mark_job_as_completed_missing now job_id data e :
  job_id ∉ job_ids (store e) → bound_as_given data →
  mark_job_as_completed now job_id data e = e.
Proof.
  destruct e as [[js md lg] n]. unfold mark_job_as_completed, job_ids.
  cbn [store jobs metadata logs connections]. intros H _.
  do 2 f_equal. induction js as [|r js IH]; [done|].
  rewrite fmap_cons in H. apply not_elem_of_cons in H as [Hne H].
  rewrite fmap_cons, IH by done.
  by rewrite bool_decide_eq_false_2.
Qed.

Lemma select_job_added job_id (d : database) r inserts :
  job_id ∉ job_ids d → JOBS_TABLE.job_id r = job_id →
  select_job job_id
    (Database (jobs d ++ [r]) (metadata d ++ inserts) (logs d)) = Some r.
Proof. intros H <-. by apply select_job_new. Qed.


(** ** The invariant of the jobs table *)

Lemma pending_row_invariant now job_id job_key job_type api_key sent result_url :
  job_invariant
    (pending_row now job_id job_key job_type api_key sent result_url).
Proof. split; [done|]. split; [by intros [] | done]. Qed.

Lemma add_pending_job_invariant now job_id job_key job_type api_key
    data meta result_url e :
  Forall job_invariant (jobs (store e)) →
  Forall job_invariant
    (jobs (store (add_pending_job now job_id job_key job_type api_key
                    data meta result_url e).1)).
Proof.
  intros Hinv.
  pose proof (add_pending_job_cases now job_id job_key job_type api_key
                data meta result_url e) as [_ H]. cbn zeta in H.
  destruct (add_pending_job _ _ _ _ _ _ _ _ _).2 as [[]|x];
    [|by destruct H as [-> _]].
  destruct H as (sent & items & inserts & _ & _ & _ & ->). cbn [jobs].
  apply Forall_app. split; [done|].
  apply Forall_singleton, pending_row_invariant.
Qed.

Lemma mark_job_as_completed_invariant now job_id data e :
  Forall job_invariant (jobs (store e)) →
  Forall job_invariant (jobs (store (mark_job_as_completed now job_id data e))).
Proof.
  unfold mark_job_as_completed. cbn [store jobs]. intros Hinv.
  apply Forall_fmap. eapply Forall_impl; [exact Hinv|].
  intros r Hr. cbn. case_bool_decide; [|done].
  split; [done|]. by split.
Qed.

(** C5: in every state reached from [init] by [add_pending_job] and
    [mark_job_as_completed], a job with a terminal status has no API key,
    and a job has a [finished_timestamp] exactly when its status is
    terminal. *)
Theorem reachable_job_invariant e :
  reachable e → Forall job_invariant (jobs (store e)).
Proof.
  induction 1 as [| ? ? ? ? ? ? ? ? e _ IH | ? ? ? e _ IH].
  - constructor.
  - by apply add_pending_job_invariant.
  - by apply mark_job_as_completed_invariant.
Qed.

(** ** Reading back what [add_pending_job] wrote *)

Lemma insert_metadata_Ok rows t :
  NoDup ((λ r, (METADATA_TABLE.job_id r, METADATA_TABLE.key r)) <$> rows) →
  (∀ r, r ∈ rows →
     (METADATA_TABLE.job_id r, METADATA_TABLE.key r)
       ∉ metadata_keys (working t)) →
  (insert_metadata rows t).2 = Ok tt.
Proof.
  revert t. induction rows as [|r rows IH]; intros t; [done|].
  rewrite fmap_cons, NoDup_cons. intros [Hr Hnd] Hfresh.
  cbn [insert_metadata]. unfold mbind, conn_op_bind, bind, insert_metadata_row.
  unfold has_metadata. rewrite bool_decide_eq_false_2 by (apply Hfresh; by left).
  apply IH; [done|]. intros r' Hr'. cbn [working metadata].
  unfold metadata_keys. cbn [metadata]. rewrite fmap_app.
  intros [H | H%list_elem_of_singleton]%elem_of_app.
  - by apply (Hfresh r'); [right|].
  - apply Hr. rewrite <- H.
    by apply (list_elem_of_fmap_2
      (λ r, (METADATA_TABLE.job_id r, METADATA_TABLE.key r)) rows r').
Qed.

Lemma metadata_inserts_Ok job_id items :
  Forall (λ kv, metadata_value_ok kv.2) items →
  ∃ inserts, metadata_inserts job_id items = Ok inserts.
Proof.
  induction 1 as [|[k v] items Hv _ [inserts IH]]; [by exists []|].
  cbn [metadata_inserts]. unfold mbind, result_mbind, result_bind.
  destruct (Py.is_basestring v) eqn:Hs.
  - rewrite IH. eauto.
  - destruct Hv as [Hv|Hv]; [cbn in Hv; congruence|].
    unfold Json.dumps. cbn in Hv. rewrite Hv, IH. eauto.
Qed.

Lemma get_metadata_rows_inserts job_id items rows acc :
  Forall2 (λ kv r, METADATA_TABLE.job_id r = job_id ∧
                   METADATA_TABLE.key r = kv.1 ∧ stored_as kv.2 r)
    items rows →
  Forall (λ kv, metadata_value_ok kv.2) items →
  _get_metadata_rows rows acc = Ok (foldl (λ d kv, <[kv.1 := kv.2]> d) acc items).
Proof.
  intros HF. revert acc.
  induction HF as [|[k v] r items rows (_ & Hk & Hst) _ IH]; intros acc Hok;
    [done|].
  apply Forall_cons in Hok as [Hv Hok].
  cbn [_get_metadata_rows foldl fst snd] in *.
  unfold mbind, result_mbind, result_bind. rewrite Hk.
  destruct (decide (Py.is_basestring v = true)) as [Hs|Hs].
  - destruct v; try done. cbn in Hst. destruct Hst as [-> ->]. by apply IH.
  - destruct Hv as [Hv|Hv]; [done|].
    assert (METADATA_TABLE.value r = PStr (Json.text v) ∧
            METADATA_TABLE.type r = PStr "json") as [-> ->]
      by (by destruct v).
    rewrite (JsonFacts.loads_dumps v (Json.text v));
      [by apply IH | unfold Json.dumps; by rewrite Hv].
Qed.

Lemma filter_metadata_other job_id (l : list METADATA_TABLE.row) :
  (∀ r, r ∈ l → METADATA_TABLE.job_id r ≠ job_id) →
  filter (λ r, METADATA_TABLE.job_id r = job_id) l = [].
Proof.
  induction l as [|r l IH]; intros H; [done|].
  rewrite filter_cons_False by (apply H; by left).
  apply IH. intros r' Hr'. apply H. by right.
Qed.

Lemma filter_metadata_same job_id (l : list METADATA_TABLE.row) :
  (∀ r, r ∈ l → METADATA_TABLE.job_id r = job_id) →
  filter (λ r, METADATA_TABLE.job_id r = job_id) l = l.
Proof.
  induction l as [|r l IH]; intros H; [done|].
  rewrite filter_cons_True by (apply H; by left).
  f_equal. apply IH. intros r' Hr'. apply H. by right.
Qed.

Lemma filter_logs_other job_id (l : list LOGS_TABLE.row) :
  (∀ r, r ∈ l → LOGS_TABLE.job_id r ≠ job_id) →
  filter (λ r, LOGS_TABLE.job_id r = job_id) l = [].
Proof.
  induction l as [|r l IH]; intros H; [done|].
  rewrite filter_cons_False by (apply H; by left).
  apply IH. intros r' Hr'. apply H. by right.
Qed.

Lemma get_job_field_plain field value :
  field ∉ ["sent_data"; "data"; "error"] →
  ∃ v, get_job_field field value = Ok v ∧
       (value = PNone → v = PNone) ∧
       (∀ s, value = PStr s → v = PStr s) ∧
       (∀ t, value = PDateTime t → v = PStr (Py.isoformat t)).
Proof.
  intros H. unfold get_job_field. rewrite bool_decide_eq_false_2 by done.
  destruct value; eexists; (split; [reflexivity|]);
    split_and!; intros; by simplify_eq.
Qed.

Lemma get_job_fields_pending now job_id job_key job_type api_key sent
    result_url v u :
  Json.loads (PStr sent) = Ok v →
  get_job_field "result_url" result_url = Ok u →
  get_job_fields
    (JOBS_TABLE.items
       (pending_row now job_id job_key job_type api_key sent result_url)) ∅ =
  Ok (delete "logs"
        (delete "metadata"
           (pending_record now job_id job_key job_type api_key v u ∅ []))).
Proof.
  intros Hv Hu. unfold pending_row, JOBS_TABLE.items.
  cbn [JOBS_TABLE.job_id JOBS_TABLE.job_type JOBS_TABLE.status JOBS_TABLE.data
       JOBS_TABLE.error JOBS_TABLE.requested_timestamp
       JOBS_TABLE.finished_timestamp JOBS_TABLE.sent_data
       JOBS_TABLE.result_url JOBS_TABLE.api_key JOBS_TABLE.job_key].
  cbn [get_job_fields]. unfold mbind, result_mbind, result_bind.
  change (get_job_field "job_id" (PStr job_id)) with (@Ok pyval (PStr job_id)).
  change (get_job_field "job_type" (PStr job_type))
    with (@Ok pyval (PStr job_type)).
  change (get_job_field "status" (PStr "pending"))
    with (@Ok pyval (PStr "pending")).
  change (get_job_field "data" PNone) with (@Ok pyval PNone).
  change (get_job_field "error" PNone) with (@Ok pyval PNone).
  change (get_job_field "requested_timestamp" (PDateTime now))
    with (@Ok pyval (PStr (Py.isoformat now))).
  change (get_job_field "finished_timestamp" PNone) with (@Ok pyval PNone).
  change (get_job_field "sent_data" (PStr sent)) with (Json.loads (PStr sent)).
  change (get_job_field "api_key" (PStr api_key)) with (@Ok pyval (PStr api_key)).
  change (get_job_field "job_key" (PStr job_key)) with (@Ok pyval (PStr job_key)).
  rewrite Hv, Hu. reflexivity.
Qed.

(** On a database that respects its foreign keys, [add_pending_job] with a
    new [job_id], JSON-encodable data and a metadata dict of strings and
    JSON-encodable values returns, and the state it leaves is known. *)
Lemma add_pending_job_fresh now job_id job_key job_type api_key data
    (md : gmap string pyval) result_url e :
  job_id ∉ job_ids (store e) → fk_ok (store e) →
  Json.encodable data = true →
  map_Forall (λ _ v, metadata_value_ok v) md →
  ∃ inserts,
    Forall2 (λ kv r, METADATA_TABLE.job_id r = job_id ∧
                     METADATA_TABLE.key r = kv.1 ∧ stored_as kv.2 r)
      (map_to_list md) inserts ∧
    add_pending_job now job_id job_key job_type api_key data (PDict md)
      result_url e =
    (Engine
       (Database
          (jobs (store e) ++
           [pending_row now job_id job_key job_type api_key
              (Json.text (or_empty_dict data)) result_url])
          (metadata (store e) ++ inserts) (logs (store e)))
       (connections e), Ok tt).
Proof.
  intros Hj [Hfk _] Hd Hmd.
  apply map_Forall_to_list in Hmd.
  assert (Forall (λ kv : string * pyval, metadata_value_ok kv.2)
            (map_to_list md)) as Hmd'.
  { eapply Forall_impl; [exact Hmd|]. by intros [k v]. }
  destruct (metadata_inserts_Ok job_id _ Hmd') as [inserts Hins].
  pose proof (metadata_inserts_spec _ _ _ Hins) as HF.
  exists inserts. split; [done|].
  rewrite add_pending_job_unfold. unfold Json.dumps.
  rewrite or_empty_dict_encodable by done.
  rewrite (proj2 (has_job_false _ _)) by done.
  rewrite or_empty_dict_PDict. cbn [py_items]. rewrite Hins. cbn zeta.
  set (t0 := Txn _ _).
  assert ((insert_metadata inserts t0).2 = Ok tt) as Hok.
  { apply insert_metadata_Ok.
    - assert ((λ r, (METADATA_TABLE.job_id r, METADATA_TABLE.key r)) <$> inserts
              = (λ k, (job_id, k)) <$> (map_to_list md).*1) as ->.
      { clear -HF. induction HF as [|[k v] r ? ? (Hid & Hk & _) _ IH]; [done|].
        cbn in *. by rewrite IH, Hid, Hk. }
      apply NoDup_fmap_2; [by intros ?? [=] | apply NoDup_fst_map_to_list].
    - intros r Hr Hin. subst t0. cbn [working] in Hin.
      unfold metadata_keys in Hin. cbn [metadata] in Hin.
      apply list_elem_of_fmap in Hin as (r' & [= Hid _] & Hr').
      apply Hj. 
      assert (METADATA_TABLE.job_id r = job_id) as Hrid.
      { clear -HF Hr. induction HF as [|? ? ? ? (? & _) _ IH];
          [by apply elem_of_nil in Hr|].
        apply elem_of_cons in Hr as [->|Hr]; [done | by apply IH]. }
      rewrite <- Hrid, Hid. by apply Hfk. }
  destruct (insert_metadata_spec inserts t0) as [_ Hw].
  rewrite Hok in Hw |- *. by rewrite Hw.
Qed.

(** [get_job] right after such a call. *)
Lemma get_job_after_add now job_id job_key job_type api_key data
    (md : gmap string pyval) result_url e u :
  job_id ∉ job_ids (store e) → fk_ok (store e) →
  Json.encodable data = true →
  map_Forall (λ _ v, metadata_value_ok v) md →
  get_job_field "result_url" result_url = Ok u →
  get_job job_id
    (add_pending_job now job_id job_key job_type api_key data (PDict md)
       result_url e).1 =
  Ok (Some (pending_record now job_id job_key job_type api_key
              (or_empty_dict data) u md [])).
Proof.
  intros Hj Hfk Hd Hmd Hu.
  destruct (add_pending_job_fresh now job_id job_key job_type api_key data md
              result_url e Hj Hfk Hd Hmd) as (inserts & HF & ->).
  destruct Hfk as [Hfkm Hfkl]. cbn [fst].
  unfold get_job. cbn [store]. rewrite select_job_added by done.
  unfold mbind at 1, result_mbind at 1, result_bind at 1.
  rewrite (get_job_fields_pending _ _ _ _ _ _ _ (or_empty_dict data) u);
    [|apply JsonFacts.loads_dumps; unfold Json.dumps;
      by rewrite or_empty_dict_encodable | done].
  unfold _get_metadata, select_metadata, _get_logs, select_logs.
  cbn [store metadata logs].
  rewrite filter_app, filter_metadata_other, app_nil_l; last first.
  { intros r Hr <-. by apply Hj, Hfkm. }
  rewrite filter_metadata_same; last first.
  { clear -HF. intros r Hr. induction HF as [|? ? ? ? (? & _) _ IH];
      [by apply elem_of_nil in Hr|].
    apply elem_of_cons in Hr as [->|Hr]; [done | by apply IH]. }
  rewrite (get_metadata_rows_inserts job_id (map_to_list md)); [|done|];
    last first.
  { apply map_Forall_to_list in Hmd.
    eapply Forall_impl; [exact Hmd|]. by intros [k v]. }
  fold (Json.dict_of_pairs (map_to_list md)).
  rewrite JsonFacts.dict_of_pairs_map_to_list.
  rewrite filter_logs_other; last first.
  { intros r Hr <-. by apply Hj, Hfkl. }
  reflexivity.
Qed.

(** C2: after [add_pending_job] with a metadata dict whose values are
    strings or JSON-encodable values, each string is stored as it is with
    the tag [string] and each other value as its JSON text with the tag
    [json], and [get_job] returns a metadata dict equal to the one given. *)
Theorem metadata_round_trip now job_id job_key job_type api_key data
    (md : gmap string pyval) result_url e :
  job_id ∉ job_ids (store e) → fk_ok (store e) →
  Json.encodable data = true →
  map_Forall (λ _ v, metadata_value_ok v) md →
  let run := add_pending_job now job_id job_key job_type api_key data
               (PDict md) result_url e in
  run.2 = Ok tt ∧
  (∃ inserts,
     metadata (store run.1) = metadata (store e) ++ inserts ∧
     Forall2 (λ kv r, METADATA_TABLE.job_id r = job_id ∧
                      METADATA_TABLE.key r = kv.1 ∧ stored_as kv.2 r)
       (map_to_list md) inserts) ∧
  ∃ result_dict,
    get_job job_id run.1 = Ok (Some result_dict) ∧
    result_dict !! "metadata" = Some (PDict md).
Proof.
  intros Hj Hfk Hd Hmd run.
  destruct (get_job_field_plain "result_url" result_url) as (u & Hu & _).
  { compute_done. }
  pose proof (get_job_after_add now job_id job_key job_type api_key data md
                result_url e u Hj Hfk Hd Hmd Hu) as Hget.
  destruct (add_pending_job_fresh now job_id job_key job_type api_key data md
              result_url e Hj Hfk Hd Hmd) as (inserts & HF & Hrun).
  fold run in Hget, Hrun. rewrite Hrun in Hget |- *. cbn [fst snd store metadata].
  split_and!; [done | by exists inserts |].
  eexists. split; [exact Hget | reflexivity].
Qed.

(** C9: [add_pending_job] with a new [job_id], a JSON-encodable dict as
    data, and a [result_url] that is a string or [None], followed by
    [get_job], returns the record of the inputs: the strings as given,
    status [pending], the API key, [sent_data] decoded back to the dict,
    [requested_timestamp] in ISO format, the unset columns as [None], the
    metadata and no logs. *)
Theorem add_pending_job_then_get_job now job_id job_key job_type api_key
    (sent md : gmap string pyval) result_url e :
  job_id ∉ job_ids (store e) → fk_ok (store e) →
  Json.encodable (PDict sent) = true →
  map_Forall (λ _ v, metadata_value_ok v) md →
  result_url = PNone ∨ (∃ u, result_url = PStr u) →
  get_job job_id
    (add_pending_job now job_id job_key job_type api_key (PDict sent)
       (PDict md) result_url e).1 =
  Ok (Some (pending_record now job_id job_key job_type api_key
              (PDict sent) result_url md [])).
Proof.
  intros Hj Hfk Hd Hmd Hurl.
  rewrite <- (or_empty_dict_PDict sent) at 2.
  apply get_job_after_add; [done..|].
  by destruct Hurl as [-> | [u ->]].
Qed.

(** C3: at [mark_job_as_completed("job-1", {"x": 1})] on an existing job,
    the [data] cell holds the dict itself, not its JSON text, and the
    [get_job] that follows raises [TypeError] from [json.loads]. *)
Theorem mark_job_as_completed_not_encoded :
  let e := mark_job_as_completed at_10_00_05 "job-1" x_is_1 one_job in
  JOBS_TABLE.data <$> select_job "job-1" (store e) = Some x_is_1 ∧
  Json.dumps x_is_1 = Ok (Json.text x_is_1) ∧
  x_is_1 ≠ PStr (Json.text x_is_1) ∧
  get_job "job-1" e = Raise TypeError.
Proof. cbv zeta. split_and!; [reflexivity | reflexivity | discriminate | reflexivity]. Qed.

(** C7, as stated, fails: the logs of [job-1] come back in the order of the
    table, the row of 10:00:05 before the row of 10:00:00. *)
Lemma get_job_logs_not_ordered :
  ∃ result_dict,
    get_job "job-1" one_job_two_logs = Ok (Some result_dict) ∧
    result_dict !! "logs"
    = Some (PList (PDict <$> _get_logs "job-1" one_job_two_logs)) ∧
    timestamps_ascending (_get_logs "job-1" one_job_two_logs) = false.
Proof. exists one_job_two_logs_record. split_and!; reflexivity. Qed.

(** C7, amended: the logs [get_job] returns are the log rows of the job,
    in the order the table holds them, each as a record of its six other
    columns, without [job_id]. *)
Theorem get_job_logs job_id e result_dict :
  get_job job_id e = Ok (Some result_dict) →
  ∃ records,
    result_dict !! "logs" = Some (PList (PDict <$> records)) ∧
    records =
    log_record <$> filter (λ r, LOGS_TABLE.job_id r = job_id) (logs (store e)) ∧
    Forall (λ d, d !! "job_id" = None) records.
Proof.
  unfold get_job. destruct (select_job job_id (store e)); [|done].
  unfold mbind, result_mbind, result_bind.
  destruct (get_job_fields _ _); [|done].
  destruct (_get_metadata _ _); [|done]. intros [= <-].
  exists (_get_logs job_id e). split_and!.
  - by rewrite lookup_insert_eq.
  - unfold _get_logs, select_logs. rewrite <- list_fmap_compose.
    apply list_fmap_ext. intros i row _. reflexivity.
  - unfold _get_logs. apply Forall_fmap, Forall_true. intros d.
    apply lookup_delete_eq.
Qed.

(** ** The constraints of the schema hold in every reachable state *)

Lemma mark_job_as_completed_job_ids now job_id data e :
  job_ids (store (mark_job_as_completed now job_id data e)) = job_ids (store e).
Proof.
  unfold mark_job_as_completed, job_ids. cbn [store jobs].
  rewrite <- list_fmap_compose. apply list_fmap_ext.
  intros i r _. cbn. by case_bool_decide.
Qed.

Lemma add_pending_job_fk_ok now job_id job_key job_type api_key
    data meta result_url e :
  fk_ok (store e) →
  fk_ok (store (add_pending_job now job_id job_key job_type api_key
                  data meta result_url e).1).
Proof.
  intros [Hm Hl].
  pose proof (add_pending_job_cases now job_id job_key job_type api_key
                data meta result_url e) as [_ H]. cbn zeta in H.
  destruct (add_pending_job _ _ _ _ _ _ _ _ _).2 as [[]|x];
    [|by destruct H as [-> _]].
  destruct H as (sent & items & inserts & _ & _ & HF & ->).
  unfold fk_ok, job_ids. cbn [jobs metadata logs]. rewrite fmap_app.
  split.
  - intros r [Hr|Hr]%elem_of_app; apply elem_of_app.
    + left. by apply Hm.
    + right. apply list_elem_of_singleton. cbn.
      clear -HF Hr. induction HF as [|? ? ? ? (? & _) _ IH];
        [by apply elem_of_nil in Hr|].
      apply elem_of_cons in Hr as [->|Hr]; [done | by apply IH].
  - intros r Hr. apply elem_of_app. left. by apply Hl.
Qed.

(** X14: in every state reached from [init] by [add_pending_job] and
    [mark_job_as_completed], every metadata row and every log row belongs
    to a job of the [jobs] table. *)
Lemma reachable_fk_ok e : reachable e → fk_ok (store e).
Proof.
  induction 1 as [| ? ? ? ? ? ? ? ? e _ IH | ? ? ? e _ IH].
  - split; intros r Hr; by apply elem_of_nil in Hr.
  - by apply add_pending_job_fk_ok.
  - destruct IH as [Hm Hl].
    split; intros r Hr; rewrite mark_job_as_completed_job_ids;
      [by apply Hm | by apply Hl].
Qed.

(** What [mark_job_as_completed] does to the row of an existing job. *)
Lemma mark_job_as_completed_row now job_id data e r :
  select_job job_id (store e) = Some r →
  select_job job_id (store (mark_job_as_completed now job_id data e)) =
  Some {| JOBS_TABLE.job_id := JOBS_TABLE.job_id r;
          JOBS_TABLE.job_type := JOBS_TABLE.job_type r;
          JOBS_TABLE.status := PStr "complete";
          JOBS_TABLE.data := data;
          JOBS_TABLE.error := JOBS_TABLE.error r;
          JOBS_TABLE.requested_timestamp := JOBS_TABLE.requested_timestamp r;
          JOBS_TABLE.finished_timestamp := PDateTime now;
          JOBS_TABLE.sent_data := JOBS_TABLE.sent_data r;
          JOBS_TABLE.result_url := JOBS_TABLE.result_url r;
          JOBS_TABLE.api_key := PNone;
          JOBS_TABLE.job_key := JOBS_TABLE.job_key r |}.
Proof.
  unfold select_job, mark_job_as_completed. cbn [store jobs].
  induction (jobs (store e)) as [|r' l IH]; [done|].
  rewrite fmap_cons.
  destruct (decide (JOBS_TABLE.job_id r' = job_id)) as [E|E].
  - rewrite filter_cons_True by done. intros [= ->].
    rewrite bool_decide_eq_true_2 by done.
    by rewrite filter_cons_True.
  - rewrite filter_cons_False by done. intros H.
    rewrite bool_decide_eq_false_2 by done.
    rewrite filter_cons_False by done. by apply IH.
Qed.


Lemma insert_metadata_NoDup rows t :
  NoDup (metadata_keys (working t)) →
  NoDup (metadata_keys (working (insert_metadata rows t).1)).
Proof.
  revert t. induction rows as [|r rows IH]; intros t Hnd; [done|].
  cbn [insert_metadata]. unfold mbind, conn_op_bind, bind, insert_metadata_row.
  unfold has_metadata. case_bool_decide as Hin; [done|].
  apply IH. cbn [working]. unfold metadata_keys in *. cbn [metadata].
  rewrite fmap_app. apply NoDup_app. split_and!; [done| |apply NoDup_singleton].
  intros k Hk ->%list_elem_of_singleton. done.
Qed.

Lemma add_pending_job_pk_ok now job_id job_key job_type api_key
    data meta result_url e :
  pk_ok (store e) →
  pk_ok (store (add_pending_job now job_id job_key job_type api_key
                  data meta result_url e).1).
Proof.
  intros [Hj Hm]. rewrite add_pending_job_unfold.
  destruct (Json.dumps _) as [sent|x]; [|done].
  destruct (has_job job_id (store e)) eqn:Hnew; [done|].
  destruct (py_items _) as [items|x]; [|done].
  destruct (metadata_inserts job_id items) as [inserts|x]; [|done].
  cbn zeta. set (t0 := Txn _ _).
  pose proof (insert_metadata_NoDup inserts t0 Hm) as Hnd.
  destruct (insert_metadata_spec inserts t0) as [_ Hw].
  destruct (insert_metadata inserts t0) as [t' [[]|x]]; cbn [fst snd] in *;
    [|done].
  split; [|done]. rewrite Hw. subst t0. unfold job_ids.
  cbn [store jobs working].
  rewrite fmap_app. apply NoDup_app. split_and!; [done| |apply NoDup_singleton].
  intros k Hk ->%list_elem_of_singleton. by apply has_job_false in Hnew.
Qed.

(** X13: in every state reached from [init] by [add_pending_job] and
    [mark_job_as_completed], no two job rows share a [job_id] and no two
    metadata rows share a [(job_id, key)]. *)
Lemma reachable_pk_ok e : reachable e → pk_ok (store e).
Proof.
  induction 1 as [| ? ? ? ? ? ? ? ? e _ IH | ? ? ? e _ IH].
  - split; apply NoDup_nil_2.
  - by apply add_pending_job_pk_ok.
  - destruct IH as [Hj Hm]. split; [|done].
    by rewrite mark_job_as_completed_job_ids.
Qed.

(** ** The theorems at the sample values *)

Lemma init_fk_ok : fk_ok (store init).
Proof. split; intros r Hr; by apply elem_of_nil in Hr. Qed.

Lemma a_and_b_ok : map_Forall (λ _ v, metadata_value_ok v) a_and_b.
Proof.
  unfold a_and_b.
  apply map_Forall_insert_2; [by left|].
  apply map_Forall_insert_2; [by right|].
  apply map_Forall_empty.
Qed.

Lemma metadata_round_trip_witness :
  let run := add_pending_job at_10_00_00 "job-1" "key-1" "type-1" "api-1"
               x_is_1 (PDict a_and_b) PNone init in
  run.2 = Ok tt ∧
  (∃ inserts,
     metadata (store run.1) = metadata (store init) ++ inserts ∧
     Forall2 (λ kv r, METADATA_TABLE.job_id r = "job-1" ∧
                      METADATA_TABLE.key r = kv.1 ∧ stored_as kv.2 r)
       (map_to_list a_and_b) inserts) ∧
  ∃ result_dict,
    get_job "job-1" run.1 = Ok (Some result_dict) ∧
    result_dict !! "metadata" = Some (PDict a_and_b).
Proof.
  apply (metadata_round_trip at_10_00_00 "job-1" "key-1" "type-1" "api-1"
           x_is_1 a_and_b PNone init).
  - compute_done.
  - apply init_fk_ok.
  - reflexivity.
  - apply a_and_b_ok.
Defined.

Lemma add_pending_job_duplicate_witness :
  add_pending_job at_10_00_05 "job-1" "key-2" "type-2" "api-2"
    PNone PNone PNone one_job = (one_job, Raise IntegrityError).
Proof.
  apply (add_pending_job_duplicate at_10_00_00 "job-1" "key-1" "type-1"
           "api-1" x_is_1 (PDict a_and_b) PNone at_10_00_05 "key-2" "type-2"
           "api-2" PNone PNone PNone init).
  - reflexivity.
  - reflexivity.
Defined.

Lemma reachable_job_invariant_witness :
  Forall job_invariant
    (jobs (store (mark_job_as_completed at_10_00_05 "job-1" PNone one_job))).
Proof.
  apply reachable_job_invariant.
  apply reachable_complete, reachable_add, reachable_init.
Defined.

Lemma get_job_missing_witness : get_job "job-2" one_job = Ok None.
Proof. apply get_job_missing. compute_done. Defined.

Lemma mark_job_as_completed_missing_witness :
  mark_job_as_completed at_10_00_05 "job-2" (PStr (Json.text x_is_1)) one_job
  = one_job.
Proof.
  apply mark_job_as_completed_missing; [compute_done|].
  right. by eexists.
Defined.

Lemma add_pending_job_then_get_job_witness :
  get_job "job-1" one_job =
  Ok (Some (pending_record at_10_00_00 "job-1" "key-1" "type-1" "api-1"
              x_is_1 PNone a_and_b [])).
Proof.
  apply (add_pending_job_then_get_job at_10_00_00 "job-1" "key-1" "type-1"
           "api-1" {["x" := PInt 1]} a_and_b PNone init).
  - compute_done.
  - apply init_fk_ok.
  - reflexivity.
  - apply a_and_b_ok.
  - by left.
Defined.


Lemma get_job_logs_witness :
  ∃ records,
    one_job_two_logs_record !! "logs" = Some (PList (PDict <$> records)) ∧
    records =
    log_record <$>
      filter (λ r, LOGS_TABLE.job_id r = "job-1")
        (logs (store one_job_two_logs)) ∧
    Forall (λ d, d !! "job_id" = None) records.
Proof.
  apply (get_job_logs "job-1" one_job_two_logs one_job_two_logs_record).
  reflexivity.
Defined.

(** ** One job does not disturb another *)

Lemma get_job_store job_id e e' :
  store e = store e' → get_job job_id e = get_job job_id e'.
Proof.
  intros H. unfold get_job, _get_metadata, _get_logs. by rewrite H.
Qed.

Lemma filter_jobs_app_other job_id (l : list JOBS_TABLE.row) r :
  JOBS_TABLE.job_id r ≠ job_id →
  filter (λ r, JOBS_TABLE.job_id r = job_id) (l ++ [r]) =
  filter (λ r, JOBS_TABLE.job_id r = job_id) l.
Proof.
  intros H. rewrite filter_app, filter_cons_False by done.
  by rewrite filter_nil, app_nil_r.
Qed.

Lemma filter_metadata_app_other job_id (l rows : list METADATA_TABLE.row) :
  (∀ r, r ∈ rows → METADATA_TABLE.job_id r ≠ job_id) →
  filter (λ r, METADATA_TABLE.job_id r = job_id) (l ++ rows) =
  filter (λ r, METADATA_TABLE.job_id r = job_id) l.
Proof.
  intros H. rewrite filter_app, (filter_metadata_other job_id rows) by done.
  by rewrite app_nil_r.
Qed.

(** X1: [add_pending_job] for one [job_id] leaves what [get_job] returns for
    every other [job_id] as it was, whether it returns or raises. *)
Theorem add_pending_job_other_job now job_id job_key job_type api_key
    data meta result_url e other :
  other ≠ job_id →
  get_job other
    (add_pending_job now job_id job_key job_type api_key data meta
       result_url e).1 = get_job other e.
Proof.
  intros Hne.
  pose proof (add_pending_job_cases now job_id job_key job_type api_key
                data meta result_url e) as [_ H]. cbn zeta in H.
  destruct (add_pending_job _ _ _ _ _ _ _ _ _).2 as [[]|x].
  - destruct H as (sent & items & inserts & _ & _ & HF & Hst).
    unfold get_job, select_job, _get_metadata, select_metadata, _get_logs,
      select_logs. rewrite Hst. cbn [jobs metadata logs].
    rewrite filter_jobs_app_other by (cbn; congruence).
    rewrite filter_metadata_app_other; [done|].
    clear -HF Hne. intros r Hr Hid.
    induction HF as [|? ? ? ? (Hj & _) _ IH]; [by apply elem_of_nil in Hr|].
    apply elem_of_cons in Hr as [->|Hr]; [congruence | by apply IH].
  - destruct H as [Hst _]. by apply get_job_store.
Qed.

Lemma filter_jobs_completed now job_id data other (l : list JOBS_TABLE.row) :
  other ≠ job_id →
  filter (λ r, JOBS_TABLE.job_id r = other)
    ((λ r, if bool_decide (JOBS_TABLE.job_id r = job_id)
           then {| JOBS_TABLE.status := PStr "complete";
                   JOBS_TABLE.finished_timestamp := PDateTime now;
                   JOBS_TABLE.api_key := PNone;
                   JOBS_TABLE.data := data;
                   JOBS_TABLE.job_id := JOBS_TABLE.job_id r;
                   JOBS_TABLE.job_type := JOBS_TABLE.job_type r;
                   JOBS_TABLE.error := JOBS_TABLE.error r;
                   JOBS_TABLE.requested_timestamp :=
                     JOBS_TABLE.requested_timestamp r;
                   JOBS_TABLE.sent_data := JOBS_TABLE.sent_data r;
                   JOBS_TABLE.result_url := JOBS_TABLE.result_url r;
                   JOBS_TABLE.job_key := JOBS_TABLE.job_key r |}
           else r) <$> l) =
  filter (λ r, JOBS_TABLE.job_id r = other) l.
Proof.
  intros Hne. induction l as [|r l IH]; [done|].
  rewrite fmap_cons. case_bool_decide as Hid.
  - rewrite !filter_cons_False by (cbn; congruence). done.
  - destruct (decide (JOBS_TABLE.job_id r = other)).
    + rewrite !filter_cons_True by done. by rewrite IH.
    + rewrite !filter_cons_False by done. done.
Qed.

(** X2: [mark_job_as_completed] for one [job_id] leaves what [get_job]
    returns for every other [job_id] as it was. *)
Theorem mark_job_as_completed_other_job now job_id data e other :
  other ≠ job_id →
  get_job other (mark_job_as_completed now job_id data e) = get_job other e.
Proof.
  intros Hne.
  unfold get_job, select_job, _get_metadata, select_metadata, _get_logs,
    select_logs, mark_job_as_completed. cbn [store jobs metadata logs].
  by rewrite filter_jobs_completed.
Qed.

(** X3: a second [mark_job_as_completed] of the same job, each with a
    [data] the driver binds as it is ([None] or a string), overwrites the
    first: its [data] and its [finished_timestamp] are the ones that stay. *)
Theorem mark_job_as_completed_twice now now' job_id data data' e :
  bound_as_given data → bound_as_given data' →
  mark_job_as_completed now' job_id data'
    (mark_job_as_completed now job_id data e) =
  mark_job_as_completed now' job_id data' e.
Proof.
  intros _ _.
  unfold mark_job_as_completed. cbn [store jobs metadata logs connections].
  do 2 f_equal. rewrite <- list_fmap_compose. apply list_fmap_ext.
  intros i r _. cbn.
  destruct (decide (JOBS_TABLE.job_id r = job_id)) as [Hid|Hid].
  - rewrite !(bool_decide_eq_true_2 (JOBS_TABLE.job_id r = job_id)) by done.
    cbn. by rewrite ?bool_decide_eq_true_2.
  - by rewrite !(bool_decide_eq_false_2 (JOBS_TABLE.job_id r = job_id)).
Qed.

(** ** The failures of [add_pending_job] *)

Lemma not_encodable_truthy v :
  Json.encodable v = false → Py.truthy v = true.
Proof.
  destruct v as [|b|z|s|t|l|d]; try done.
  - by destruct l.
  - cbn [Json.encodable Py.truthy]. case_bool_decide as Hd; [|done].
    subst d. by rewrite fmap_empty, map_to_list_empty.
Qed.

(** X4: when [data] is not JSON serializable, [add_pending_job] raises
    [TypeError] and leaves the engine as it was, also when the [job_id] is
    already taken: [json.dumps(data)] runs before the insert. *)
Theorem add_pending_job_data_not_serializable now job_id job_key job_type
    api_key data meta result_url e :
  Json.encodable data = false →
  add_pending_job now job_id job_key job_type api_key data meta result_url e
  = (e, Raise TypeError).
Proof.
  intros Hd. rewrite add_pending_job_unfold.
  unfold or_empty_dict at 1. rewrite not_encodable_truthy by done.
  unfold Json.dumps. by rewrite Hd.
Qed.

Lemma metadata_inserts_TypeError job_id items :
  Exists (λ kv, Py.is_basestring kv.2 = false ∧ Json.encodable kv.2 = false)
    items →
  metadata_inserts job_id items = Raise TypeError.
Proof.
  induction items as [|[k v] items IH]; intros Hex;
    [by apply Exists_nil in Hex|].
  cbn [metadata_inserts]. unfold mbind, result_mbind, result_bind.
  apply Exists_cons in Hex as [[Hs Hv]|Hex]; cbn [snd] in *.
  - rewrite Hs. unfold Json.dumps. by rewrite Hv.
  - rewrite (IH Hex).
    destruct (Py.is_basestring v); [done|].
    unfold Json.dumps. by destruct (Json.encodable v).
Qed.

(** The job row is in the transaction when the metadata is looked at. *)
Lemma add_pending_job_body_after_insert now job_id job_key job_type api_key
    data meta result_url e x :
  job_id ∉ job_ids (store e) →
  Json.encodable data = true →
  (items ← py_items meta; metadata_inserts job_id items) = Raise x →
  let r := add_pending_job_body now job_id job_key job_type api_key
             data meta result_url (begin (connect e)) in
  r.2 = Raise x ∧
  select_job job_id (working r.1) =
  Some (pending_row now job_id job_key job_type api_key (Json.text data)
          result_url).
Proof.
  intros Hj Hd Hx r. subst r.
  unfold mbind, result_mbind, result_bind in Hx.
  unfold add_pending_job_body, begin, connect, lift, mbind, conn_op_bind, bind,
    insert_job.
  unfold Json.dumps. rewrite Hd. cbn [store working committed].
  cbn [JOBS_TABLE.job_id]. rewrite (proj2 (has_job_false _ _)) by done.
  fold (pending_row now job_id job_key job_type api_key (Json.text data)
          result_url).
  destruct (py_items meta) as [items|y].
  - rewrite Hx. cbn [fst snd working]. split; [done|].
    by apply (select_job_new _ (pending_row now job_id job_key job_type
                                  api_key (Json.text data) result_url)).
  - injection Hx as ->. cbn [fst snd working]. split; [done|].
    by apply (select_job_new _ (pending_row now job_id job_key job_type
                                  api_key (Json.text data) result_url)).
Qed.

(** X5: when a metadata value is neither a string nor JSON serializable,
    [add_pending_job] raises [TypeError] after the job row was inserted in
    the transaction, and the rollback leaves the engine as it was: no job
    row, no metadata row. *)
Theorem add_pending_job_metadata_not_serializable now job_id job_key job_type
    api_key data (md : gmap string pyval) result_url e k v :
  job_id ∉ job_ids (store e) →
  Json.encodable data = true →
  md !! k = Some v → Py.is_basestring v = false → Json.encodable v = false →
  add_pending_job now job_id job_key job_type api_key data (PDict md)
    result_url e = (e, Raise TypeError) ∧
  select_job job_id
    (working
       (add_pending_job_body now job_id job_key job_type api_key
          (or_empty_dict data) (PDict md) result_url (begin (connect e))).1)
  = Some (pending_row now job_id job_key job_type api_key
            (Json.text (or_empty_dict data)) result_url).
Proof.
  intros Hj Hd Hk Hs Hv.
  assert (metadata_inserts job_id (map_to_list md) = Raise TypeError) as Hins.
  { apply metadata_inserts_TypeError, Exists_exists.
    exists (k, v). split; [by apply elem_of_map_to_list | done]. }
  split.
  - rewrite add_pending_job_unfold. unfold Json.dumps.
    rewrite or_empty_dict_encodable by done.
    rewrite (proj2 (has_job_false _ _)) by done.
    rewrite or_empty_dict_PDict. cbn [py_items]. by rewrite Hins.
  - apply (add_pending_job_body_after_insert now job_id job_key job_type
             api_key (or_empty_dict data) (PDict md) result_url e TypeError);
      [done | by apply or_empty_dict_encodable | done].
Qed.

(** X6: when [metadata] is truthy and not a dict, [add_pending_job] raises
    [AttributeError] from [metadata.items()] after the job row was inserted
    in the transaction, and the rollback leaves the engine as it was. *)
Theorem add_pending_job_metadata_not_a_dict now job_id job_key job_type
    api_key data meta result_url e :
  job_id ∉ job_ids (store e) →
  Json.encodable data = true →
  Py.truthy meta = true → (∀ d, meta ≠ PDict d) →
  add_pending_job now job_id job_key job_type api_key data meta
    result_url e = (e, Raise AttributeError) ∧
  select_job job_id
    (working
       (add_pending_job_body now job_id job_key job_type api_key
          (or_empty_dict data) meta result_url (begin (connect e))).1)
  = Some (pending_row now job_id job_key job_type api_key
            (Json.text (or_empty_dict data)) result_url).
Proof.
  intros Hj Hd Ht Hnd.
  assert (py_items meta = Raise AttributeError) as Hit.
  { destruct meta; try done. by destruct (Hnd d). }
  split.
  - rewrite add_pending_job_unfold. unfold Json.dumps.
    rewrite or_empty_dict_encodable by done.
    rewrite (proj2 (has_job_false _ _)) by done.
    unfold or_empty_dict at 1. by rewrite Ht, Hit.
  - apply (add_pending_job_body_after_insert now job_id job_key job_type
             api_key (or_empty_dict data) meta result_url e AttributeError);
      [done | by apply or_empty_dict_encodable |].
    by rewrite Hit.
Qed.

(** ** Reading a completed job *)

Lemma get_job_field_json field value :
  field ∈ ["sent_data"; "data"; "error"] → value ≠ PNone →
  get_job_field field value = Json.loads value.
Proof.
  intros Hf Hv. unfold get_job_field. rewrite bool_decide_eq_true_2 by done.
  by destruct value.
Qed.

Lemma loads_not_json_text s :
  not_json_text s → Json.loads (PStr s) = Raise ValueError.
Proof.
  unfold not_json_text, Json.loads.
  destruct (Json.skip_ws s) as [|c r] eqn:E; [done|]. intros Hc.
  destruct s as [|a s']; [done|]. cbn [String.length].
  assert (Json.scan_once (S (String.length s')) (String c r) = None) as ->;
    [|done].
  destruct c as [[] [] [] [] [] [] [] []];
    first [discriminate Hc | reflexivity].
Qed.

(** X7: whatever the store, when the [data] given to
    [mark_job_as_completed] for an existing job is a string that cannot
    start a JSON text (a plain word such as [done]), the [get_job] of that
    job raises [ValueError] from [json.loads]. *)
Theorem get_job_after_complete_not_json now job_id s e :
  job_id ∈ job_ids (store e) → not_json_text s →
  get_job job_id (mark_job_as_completed now job_id (PStr s) e)
  = Raise ValueError.
Proof.
  intros Hj Hs. apply select_job_is_Some in Hj as (r & Hr & _ & _).
  unfold get_job.
  rewrite (mark_job_as_completed_row now job_id (PStr s) e r Hr).
  unfold JOBS_TABLE.items.
  cbn [JOBS_TABLE.job_id JOBS_TABLE.job_type JOBS_TABLE.status JOBS_TABLE.data].
  cbn [get_job_fields]. unfold mbind, result_mbind, result_bind.
  change (get_job_field "job_id" (PStr (JOBS_TABLE.job_id r)))
    with (@Ok pyval (PStr (JOBS_TABLE.job_id r))).
  destruct (get_job_field_plain "job_type" (JOBS_TABLE.job_type r))
    as (v & -> & _); [compute_done|].
  change (get_job_field "status" (PStr "complete"))
    with (@Ok pyval (PStr "complete")).
  rewrite get_job_field_json by (done || compute_done).
  by rewrite loads_not_json_text.
Qed.

Lemma mark_job_as_completed_metadata now job_id data e other :
  _get_metadata other (mark_job_as_completed now job_id data e) =
  _get_metadata other e.
Proof. reflexivity. Qed.

Lemma mark_job_as_completed_logs now job_id data e other :
  _get_logs other (mark_job_as_completed now job_id data e) =
  _get_logs other e.
Proof. reflexivity. Qed.

(** What the three queries of [get_job] find right after [add_pending_job]
    on a new [job_id]. *)
Lemma queries_after_add now job_id job_key job_type api_key data
    (md : gmap string pyval) result_url e :
  job_id ∉ job_ids (store e) → fk_ok (store e) →
  Json.encodable data = true →
  map_Forall (λ _ v, metadata_value_ok v) md →
  let e1 := (add_pending_job now job_id job_key job_type api_key data
               (PDict md) result_url e).1 in
  select_job job_id (store e1) =
  Some (pending_row now job_id job_key job_type api_key
          (Json.text (or_empty_dict data)) result_url) ∧
  _get_metadata job_id e1 = Ok md ∧
  _get_logs job_id e1 = [].
Proof.
  intros Hj Hfk Hd Hmd e1. subst e1.
  destruct (add_pending_job_fresh now job_id job_key job_type api_key data md
              result_url e Hj Hfk Hd Hmd) as (inserts & HF & ->).
  destruct Hfk as [Hfkm Hfkl]. cbn [fst store].
  split_and!.
  - by apply select_job_added.
  - unfold _get_metadata, select_metadata. cbn [store metadata].
    rewrite filter_app, filter_metadata_other, app_nil_l; last first.
    { intros r Hr <-. by apply Hj, Hfkm. }
    rewrite filter_metadata_same; last first.
    { clear -HF. intros r Hr. induction HF as [|? ? ? ? (? & _) _ IH];
        [by apply elem_of_nil in Hr|].
      apply elem_of_cons in Hr as [->|Hr]; [done | by apply IH]. }
    rewrite (get_metadata_rows_inserts job_id (map_to_list md)); [|done|];
      last first.
    { apply map_Forall_to_list in Hmd.
      eapply Forall_impl; [exact Hmd|]. by intros [k v]. }
    fold (Json.dict_of_pairs (map_to_list md)).
    by rewrite JsonFacts.dict_of_pairs_map_to_list.
  - unfold _get_logs, select_logs. cbn [store logs].
    rewrite filter_logs_other; [done|].
    intros r Hr <-. by apply Hj, Hfkl.
Qed.

Lemma get_job_fields_completed now fin job_id job_key job_type sent
    result_url cdata v u :
  Json.loads (PStr sent) = Ok v →
  get_job_field "result_url" result_url = Ok u →
  get_job_fields
    (JOBS_TABLE.items
       {| JOBS_TABLE.job_id := job_id;
          JOBS_TABLE.job_type := PStr job_type;
          JOBS_TABLE.status := PStr "complete";
          JOBS_TABLE.data := cdata;
          JOBS_TABLE.error := PNone;
          JOBS_TABLE.requested_timestamp := PDateTime now;
          JOBS_TABLE.finished_timestamp := PDateTime fin;
          JOBS_TABLE.sent_data := PStr sent;
          JOBS_TABLE.result_url := result_url;
          JOBS_TABLE.api_key := PNone;
          JOBS_TABLE.job_key := PStr job_key |}) ∅ =
  (c ← get_job_field "data" cdata;
   Ok (delete "logs"
         (delete "metadata"
            (completed_record now fin job_id job_key job_type v u c ∅ [])))).
Proof.
  intros Hv Hu. unfold JOBS_TABLE.items.
  cbn [JOBS_TABLE.job_id JOBS_TABLE.job_type JOBS_TABLE.status JOBS_TABLE.data
       JOBS_TABLE.error JOBS_TABLE.requested_timestamp
       JOBS_TABLE.finished_timestamp JOBS_TABLE.sent_data
       JOBS_TABLE.result_url JOBS_TABLE.api_key JOBS_TABLE.job_key].
  cbn [get_job_fields]. unfold mbind, result_mbind, result_bind.
  change (get_job_field "job_id" (PStr job_id)) with (@Ok pyval (PStr job_id)).
  change (get_job_field "job_type" (PStr job_type))
    with (@Ok pyval (PStr job_type)).
  change (get_job_field "status" (PStr "complete"))
    with (@Ok pyval (PStr "complete")).
  destruct (get_job_field "data" cdata) as [c|x]; [|done].
  change (get_job_field "error" PNone) with (@Ok pyval PNone).
  change (get_job_field "requested_timestamp" (PDateTime now))
    with (@Ok pyval (PStr (Py.isoformat now))).
  change (get_job_field "finished_timestamp" (PDateTime fin))
    with (@Ok pyval (PStr (Py.isoformat fin))).
  change (get_job_field "sent_data" (PStr sent)) with (Json.loads (PStr sent)).
  change (get_job_field "api_key" PNone) with (@Ok pyval PNone).
  change (get_job_field "job_key" (PStr job_key)) with (@Ok pyval (PStr job_key)).
  rewrite Hv, Hu. reflexivity.
Qed.

(** [get_job] after [add_pending_job] and [mark_job_as_completed] of the
    same job: the record is decided by what [json.loads] makes of [data]. *)
Lemma get_job_after_complete now fin job_id job_key job_type api_key data
    (md : gmap string pyval) result_url cdata e u :
  job_id ∉ job_ids (store e) → fk_ok (store e) →
  Json.encodable data = true →
  map_Forall (λ _ v, metadata_value_ok v) md →
  get_job_field "result_url" result_url = Ok u →
  get_job job_id
    (mark_job_as_completed fin job_id cdata
       (add_pending_job now job_id job_key job_type api_key data (PDict md)
          result_url e).1) =
  (c ← get_job_field "data" cdata;
   Ok (Some (completed_record now fin job_id job_key job_type
               (or_empty_dict data) u c md []))).
Proof.
  intros Hj Hfk Hd Hmd Hu.
  destruct (queries_after_add now job_id job_key job_type api_key data md
              result_url e Hj Hfk Hd Hmd) as (Hsel & Hmeta & Hlogs).
  unfold get_job.
  rewrite (mark_job_as_completed_row fin job_id cdata _ _ Hsel).
  rewrite mark_job_as_completed_metadata, mark_job_as_completed_logs.
  rewrite Hmeta, Hlogs. unfold pending_row.
  cbn [JOBS_TABLE.job_id JOBS_TABLE.job_type JOBS_TABLE.status JOBS_TABLE.data
       JOBS_TABLE.error JOBS_TABLE.requested_timestamp
       JOBS_TABLE.finished_timestamp JOBS_TABLE.sent_data
       JOBS_TABLE.result_url JOBS_TABLE.api_key JOBS_TABLE.job_key].
  rewrite (get_job_fields_completed now fin job_id job_key job_type
             _ result_url cdata (or_empty_dict data) u);
    [|apply JsonFacts.loads_dumps; unfold Json.dumps;
      by rewrite or_empty_dict_encodable | done].
  unfold mbind, result_mbind, result_bind.
  destruct (get_job_field "data" cdata) as [c|x]; reflexivity.
Qed.

(** X8: [add_pending_job] then [mark_job_as_completed] with no [data] (the
    default [None]) then [get_job]: the record has status [complete], no
    API key, both timestamps in ISO format, [data] [None], and the other
    fields, the metadata and [sent_data] as given at creation. *)
Theorem get_job_after_complete_without_data now fin job_id job_key job_type
    api_key (sent md : gmap string pyval) result_url e :
  job_id ∉ job_ids (store e) → fk_ok (store e) →
  Json.encodable (PDict sent) = true →
  map_Forall (λ _ v, metadata_value_ok v) md →
  result_url = PNone ∨ (∃ u, result_url = PStr u) →
  get_job job_id
    (mark_job_as_completed fin job_id PNone
       (add_pending_job now job_id job_key job_type api_key (PDict sent)
          (PDict md) result_url e).1) =
  Ok (Some (completed_record now fin job_id job_key job_type
              (PDict sent) result_url PNone md [])).
Proof.
  intros Hj Hfk Hd Hmd Hurl.
  rewrite (get_job_after_complete _ _ _ _ _ _ _ _ _ _ _ result_url)
    by (done || by destruct Hurl as [-> | [u ->]]).
  by rewrite or_empty_dict_PDict.
Qed.

(** X9: when the caller gives [mark_job_as_completed] the JSON text of a
    value ([json.dumps(result)]), the [get_job] that follows returns that
    value as [data]. *)
Theorem get_job_after_complete_with_json_text now fin job_id job_key job_type
    api_key (sent md : gmap string pyval) result_url value text e :
  job_id ∉ job_ids (store e) → fk_ok (store e) →
  Json.encodable (PDict sent) = true →
  map_Forall (λ _ v, metadata_value_ok v) md →
  result_url = PNone ∨ (∃ u, result_url = PStr u) →
  Json.dumps value = Ok text →
  get_job job_id
    (mark_job_as_completed fin job_id (PStr text)
       (add_pending_job now job_id job_key job_type api_key (PDict sent)
          (PDict md) result_url e).1) =
  Ok (Some (completed_record now fin job_id job_key job_type
              (PDict sent) result_url value md [])).
Proof.
  intros Hj Hfk Hd Hmd Hurl Hdumps.
  rewrite (get_job_after_complete _ _ _ _ _ _ _ _ _ _ _ result_url)
    by (done || by destruct Hurl as [-> | [u ->]]).
  rewrite get_job_field_json by (done || compute_done).
  rewrite (JsonFacts.loads_dumps value text Hdumps).
  by rewrite or_empty_dict_PDict.
Qed.

(** ** [get_job] on the stores the module writes *)

Lemma get_job_fields_Ok fields acc :
  Forall (λ fx, ∃ v, get_job_field fx.1 fx.2 = Ok v) fields →
  ∃ m, get_job_fields fields acc = Ok m.
Proof.
  intros H. revert acc.
  induction H as [|[f x] fields [v Hv] _ IH]; intros acc; [by exists acc|].
  cbn [get_job_fields fst snd] in *. unfold mbind, result_mbind, result_bind.
  rewrite Hv. apply IH.
Qed.

Lemma json_text_cell_loads c :
  json_text_cell c → ∃ v, Json.loads c = Ok v.
Proof.
  intros (v & Hv & ->). exists v.
  apply JsonFacts.loads_dumps. unfold Json.dumps. by rewrite Hv.
Qed.

Lemma get_job_field_readable field value :
  value = PNone ∨ json_text_cell value →
  ∃ v, get_job_field field value = Ok v.
Proof.
  intros [-> | Hc]; [by exists PNone|].
  destruct (decide (field ∈ ["sent_data"; "data"; "error"])) as [Hf|Hf].
  - destruct Hc as (w & Hw & ->).
    rewrite get_job_field_json by done.
    apply json_text_cell_loads. by exists w.
  - destruct (get_job_field_plain field value Hf) as (v & Hv & _). by exists v.
Qed.

Lemma job_row_fields_Ok r acc :
  job_row_readable r →
  ∃ m, get_job_fields (JOBS_TABLE.items r) acc = Ok m.
Proof.
  intros (Hsent & Herr & Hdata). apply get_job_fields_Ok.
  unfold JOBS_TABLE.items.
  repeat apply Forall_cons_2; try apply Forall_nil_2; cbn [fst snd].
  all: first
    [ apply get_job_field_readable; first [exact Hdata | by left | by right]
    | match goal with
      | |- ∃ v, get_job_field ?f ?x = Ok v =>
          destruct (get_job_field_plain f x) as (v & Hv & _);
            [compute_done | by exists v]
      end ].
Qed.

(** The tag test of [_get_metadata]. *)
Lemma metadata_tag_cases (ty value : pyval) :
  (ty = PStr "json" ∧
   match ty with PStr "json" => Json.loads value | _ => Ok value end
   = Json.loads value) ∨
  (ty ≠ PStr "json" ∧
   match ty with PStr "json" => Json.loads value | _ => Ok value end
   = Ok value).
Proof.
  destruct ty as [| | |s| | |]; try (right; split; [discriminate | reflexivity]).
  do 4 (destruct s as [|[[] [] [] [] [] [] [] []] s];
        try (right; split; [discriminate | reflexivity])).
  destruct s; [left | right]; (split; [done | reflexivity]).
Qed.

Lemma metadata_rows_Ok rows acc :
  Forall metadata_row_readable rows →
  ∃ m, _get_metadata_rows rows acc = Ok m.
Proof.
  intros H. revert acc.
  induction H as [|r rows Hr _ IH]; intros acc; [by exists acc|].
  cbn [_get_metadata_rows]. unfold mbind, result_mbind, result_bind.
  destruct (metadata_tag_cases (METADATA_TABLE.type r) (METADATA_TABLE.value r))
    as [[Hty ->] | [_ ->]].
  - destruct (json_text_cell_loads _ (Hr Hty)) as [v ->]. apply IH.
  - apply IH.
Qed.

(** [get_job] returns on every readable store. *)
Lemma get_job_readable job_id e :
  readable (store e) → ∃ o, get_job job_id e = Ok o.
Proof.
  intros [Hjobs Hmeta]. unfold get_job.
  destruct (select_job job_id (store e)) as [r|] eqn:Hsel; [|by eexists].
  assert (job_row_readable r) as Hr.
  { unfold select_job in Hsel. apply head_Some_elem_of in Hsel.
    apply list_elem_of_filter in Hsel as [_ Hin].
    by apply (proj1 (Forall_forall _ _) Hjobs). }
  destruct (job_row_fields_Ok r ∅ Hr) as [m ->].
  unfold mbind, result_mbind, result_bind.
  destruct (metadata_rows_Ok (select_metadata job_id (store e)) ∅) as [md Hmd].
  { unfold select_metadata. apply Forall_forall. intros x Hx.
    apply list_elem_of_filter in Hx as [_ Hin].
    by apply (proj1 (Forall_forall _ _) Hmeta). }
  unfold _get_metadata. rewrite Hmd. by eexists.
Qed.

Lemma metadata_inserts_readable job_id items inserts :
  metadata_inserts job_id items = Ok inserts →
  Forall metadata_row_readable inserts.
Proof.
  revert inserts. induction items as [|[k v] items IH]; intros inserts.
  { intros [= <-]. constructor. }
  cbn [metadata_inserts]. unfold mbind, result_mbind, result_bind.
  destruct (Py.is_basestring v) eqn:Hs.
  - destruct (metadata_inserts job_id items) as [rows|x]; [|done].
    intros [= <-]. constructor; [|by apply IH]. by intros [=].
  - unfold Json.dumps. destruct (Json.encodable v) eqn:Hv; [|done].
    destruct (metadata_inserts job_id items) as [rows|x]; [|done].
    intros [= <-]. constructor; [|by apply IH]. intros _. by exists v.
Qed.

Lemma add_pending_job_readable now job_id job_key job_type api_key
    data meta result_url e :
  readable (store e) →
  readable (store (add_pending_job now job_id job_key job_type api_key
                     data meta result_url e).1).
Proof.
  intros [Hjobs Hmeta]. rewrite add_pending_job_unfold.
  unfold Json.dumps.
  destruct (Json.encodable (or_empty_dict data)) eqn:Hd; [|done].
  destruct (has_job job_id (store e)); [done|].
  destruct (py_items _) as [items|x]; [|done].
  destruct (metadata_inserts job_id items) as [inserts|x] eqn:Hins; [|done].
  cbn zeta. set (t0 := Txn _ _).
  destruct (insert_metadata_spec inserts t0) as [_ Hw].
  destruct (insert_metadata inserts t0) as [t' [[]|x]]; cbn [fst snd] in *;
    [|done].
  cbn [store]. rewrite Hw. subst t0. cbn [working jobs metadata].
  split; apply Forall_app; split; try done.
  - apply Forall_singleton. split_and!; [by eexists | done | by left].
  - by apply (metadata_inserts_readable job_id items).
Qed.

Lemma mark_job_as_completed_readable now job_id data e :
  completion_data_ok data →
  readable (store e) →
  readable (store (mark_job_as_completed now job_id data e)).
Proof.
  intros Hd [Hjobs Hmeta]. unfold mark_job_as_completed.
  cbn [store jobs metadata]. split; [|done].
  apply Forall_fmap. eapply Forall_impl; [exact Hjobs|].
  intros r (Hs & He & Hdata). cbn. by case_bool_decide.
Qed.

(** X10: on every store reached from [init] by [add_pending_job] and by
    [mark_job_as_completed] given [None] or a JSON text as [data],
    [get_job] returns for every [job_id]: it never raises. *)
Theorem get_job_never_raises e job_id :
  reachable_encoded e → ∃ o, get_job job_id e = Ok o.
Proof.
  intros H. apply get_job_readable.
  induction H as [| ? ? ? ? ? ? ? ? e _ IH | ? ? ? e _ IH Hd].
  - split; constructor.
  - by apply add_pending_job_readable.
  - by apply mark_job_as_completed_readable.
Qed.

(** X11: a metadata row tagged [json] whose value [json.loads] refuses makes
    [_get_metadata] raise: the fault is not swallowed. *)
Theorem get_metadata_corrupt_row job_id e r :
  r ∈ metadata (store e) → METADATA_TABLE.job_id r = job_id →
  METADATA_TABLE.type r = PStr "json" →
  (∀ v, Json.loads (METADATA_TABLE.value r) ≠ Ok v) →
  ∃ x, _get_metadata job_id e = Raise x.
Proof.
  intros Hin Hid Hty Hbad. unfold _get_metadata.
  assert (r ∈ select_metadata job_id (store e)) as Hsel.
  { unfold select_metadata. by apply list_elem_of_filter. }
  generalize (∅ : gmap string pyval).
  induction (select_metadata job_id (store e)) as [|r' rows IH]; intros acc;
    [by apply elem_of_nil in Hsel|].
  cbn [_get_metadata_rows]. unfold mbind, result_mbind, result_bind.
  apply elem_of_cons in Hsel as [<-|Hsel].
  - rewrite Hty. destruct (Json.loads (METADATA_TABLE.value r)) as [v|x] eqn:E;
      [by destruct (Hbad v) | by exists x].
  - destruct (match METADATA_TABLE.type r' with
              | PStr "json" => Json.loads (METADATA_TABLE.value r')
              | _ => Ok (METADATA_TABLE.value r')
              end) as [v|x]; [by apply IH | by exists x].
Qed.

(** ** The shape of the record [get_job] returns *)

Lemma get_job_fields_dom fields acc m :
  get_job_fields fields acc = Ok m →
  dom m = list_to_set fields.*1 ∪ dom acc.
Proof.
  revert acc. induction fields as [|[f x] fields IH]; intros acc.
  { intros [= <-]. cbn. by rewrite (left_id_L ∅ (∪)). }
  cbn [get_job_fields]. unfold mbind, result_mbind, result_bind.
  destruct (get_job_field f x) as [v|y]; [|done].
  intros H. rewrite (IH _ H), dom_insert_L. cbn.
  apply set_eq. intros k. rewrite !elem_of_union. tauto.
Qed.

Lemma get_job_fields_lookup fields acc m f :
  get_job_fields fields acc = Ok m → f ∉ fields.*1 → m !! f = acc !! f.
Proof.
  revert acc. induction fields as [|[g x] fields IH]; intros acc.
  { by intros [= <-]. }
  cbn [get_job_fields]. unfold mbind, result_mbind, result_bind.
  destruct (get_job_field g x) as [v|y]; [|done].
  rewrite fmap_cons, not_elem_of_cons. cbn [fst]. intros H [Hne Hf].
  rewrite (IH _ H Hf). by rewrite lookup_insert_ne.
Qed.

Lemma get_job_fields_head f x fields acc m v :
  get_job_fields ((f, x) :: fields) acc = Ok m →
  get_job_field f x = Ok v → f ∉ fields.*1 → m !! f = Some v.
Proof.
  cbn [get_job_fields]. unfold mbind, result_mbind, result_bind.
  intros H Hv Hf. rewrite Hv in H.
  rewrite (get_job_fields_lookup _ _ _ f H Hf). apply lookup_insert_eq.
Qed.

(** X12: every record [get_job] returns has the same keys, the eleven columns
    of [jobs] with [metadata] and [logs], and its [job_id] is the one asked
    for. *)
Theorem get_job_record_shape job_id e result_dict :
  get_job job_id e = Ok (Some result_dict) →
  dom result_dict = list_to_set (jobs_columns ++ ["metadata"; "logs"]) ∧
  result_dict !! "job_id" = Some (PStr job_id).
Proof.
  unfold get_job.
  destruct (select_job job_id (store e)) as [r|] eqn:Hsel; [|done].
  assert (JOBS_TABLE.job_id r = job_id) as Hid.
  { unfold select_job in Hsel. apply head_Some_elem_of in Hsel.
    by apply list_elem_of_filter in Hsel as [? _]. }
  unfold mbind, result_mbind, result_bind.
  destruct (get_job_fields (JOBS_TABLE.items r) ∅) as [m|x] eqn:Hm; [|done].
  destruct (_get_metadata job_id e) as [md|x]; [|done].
  intros [= <-]. split.
  - rewrite !dom_insert_L, (get_job_fields_dom _ _ _ Hm).
    change ((JOBS_TABLE.items r).*1) with jobs_columns.
    rewrite dom_empty_L, (right_id_L ∅ (∪)). unfold jobs_columns.
    apply set_eq. intros k. cbn.
    rewrite !elem_of_union, !elem_of_singleton, elem_of_empty. tauto.
  - rewrite !lookup_insert_ne by done. rewrite <- Hid.
    apply (get_job_fields_head _ _ _ _ _ _ Hm); [reflexivity | compute_done].
Qed.

(** ** [init] and [drop_all] *)

Lemma engine_of_init_existing uri s d :
  Globals.databases s !! uri = Some d →
  Globals.engine_of (Globals.init uri s)
  = Globals.Bound (Engine d (Globals.checked_out s)).
Proof.
  intros H. unfold Globals.engine_of, Globals.init, Globals.create_all.
  cbn. by rewrite H, H.
Qed.

Lemma engine_of_init_new uri s :
  Globals.databases s !! uri = None →
  Globals.engine_of (Globals.init uri s)
  = Globals.Bound (Engine (Database [] [] []) (Globals.checked_out s)).
Proof.
  intros H. unfold Globals.engine_of, Globals.init, Globals.create_all.
  cbn. by rewrite H, lookup_insert_eq.
Qed.

(** X15: [init] on a URI whose tables exist creates nothing anew: every job
    is read as before, and a second [init] changes nothing. *)
Theorem init_again_keeps_jobs uri s d job_id :
  Globals.databases s !! uri = Some d →
  Globals.get_job job_id (Globals.init uri s)
  = Globals.Ran (get_job job_id (Engine d (Globals.checked_out s))) ∧
  Globals.init uri (Globals.init uri s) = Globals.init uri s.
Proof.
  intros H. split.
  - unfold Globals.get_job. by rewrite (engine_of_init_existing uri s d).
  - unfold Globals.init, Globals.create_all. cbn. by rewrite H, H.
Qed.

(** X16: after [drop_all] the tables are gone: [get_job] fails with the
    database error until [init] is called again, and after that [init]
    no job is left, whatever was stored before. *)
Theorem drop_all_then_init uri s job_id :
  let dropped := Globals.drop_all (Globals.init uri s) in
  Globals.get_job job_id dropped = Globals.NoTables ∧
  Globals.get_job job_id (Globals.init uri dropped) = Globals.Ran (Ok None).
Proof.
  intros dropped.
  assert (Globals.databases dropped !! uri = None) as Hd.
  { subst dropped. unfold Globals.drop_all, Globals.init. cbn.
    apply lookup_delete_eq. }
  split.
  - unfold Globals.get_job, Globals.engine_of. subst dropped.
    unfold Globals.drop_all, Globals.init in *. cbn in *. by rewrite Hd.
  - unfold Globals.get_job. by rewrite engine_of_init_new.
Qed.

(** Before [init], [drop_all] does nothing and the three operations fail
    on the [None] engine without touching any database. *)
Lemma before_init dbs now job_id job_key job_type api_key data meta
    result_url :
  let s := Globals.imported dbs in
  Globals.drop_all s = s ∧
  Globals.get_job job_id s = Globals.NoEngine ∧
  Globals.add_pending_job now job_id job_key job_type api_key data meta
    result_url s = (s, Globals.NoEngine) ∧
  Globals.mark_job_as_completed now job_id data s = (s, Globals.NoEngine).
Proof. done. Qed.

(** ** The further theorems at the sample values *)

Lemma add_pending_job_other_job_witness :
  get_job "job-1"
    (add_pending_job at_10_00_05 "job-2" "key-2" "type-2" "api-2"
       PNone PNone PNone one_job).1 = get_job "job-1" one_job.
Proof. apply add_pending_job_other_job. discriminate. Defined.

Lemma mark_job_as_completed_other_job_witness :
  get_job "job-1"
    (mark_job_as_completed at_10_00_05 "job-2" (PStr (Json.text x_is_1))
       two_jobs)
  = get_job "job-1" two_jobs ∧
  JOBS_TABLE.status <$>
    select_job "job-2"
      (store (mark_job_as_completed at_10_00_05 "job-2"
                (PStr (Json.text x_is_1)) two_jobs))
  = Some (PStr "complete").
Proof.
  split; [|reflexivity].
  apply mark_job_as_completed_other_job. discriminate.
Defined.

Lemma mark_job_as_completed_twice_witness :
  mark_job_as_completed at_10_00_05 "job-1" PNone
    (mark_job_as_completed at_10_00_00 "job-1" (PStr (Json.text x_is_1))
       one_job) =
  mark_job_as_completed at_10_00_05 "job-1" PNone one_job.
Proof.
  apply mark_job_as_completed_twice; [right; by eexists | by left].
Defined.

Lemma add_pending_job_data_not_serializable_witness :
  add_pending_job at_10_00_05 "job-1" "key-2" "type-2" "api-2"
    (PList [PDateTime at_10_00_00]) PNone PNone one_job
  = (one_job, Raise TypeError).
Proof. apply add_pending_job_data_not_serializable. reflexivity. Defined.

Lemma add_pending_job_metadata_not_serializable_witness :
  add_pending_job at_10_00_00 "job-1" "key-1" "type-1" "api-1" x_is_1
    (PDict {["when" := PDateTime at_10_00_00]}) PNone init
  = (init, Raise TypeError) ∧
  select_job "job-1"
    (working
       (add_pending_job_body at_10_00_00 "job-1" "key-1" "type-1" "api-1"
          (or_empty_dict x_is_1) (PDict {["when" := PDateTime at_10_00_00]})
          PNone (begin (connect init))).1)
  = Some (pending_row at_10_00_00 "job-1" "key-1" "type-1" "api-1"
            (Json.text (or_empty_dict x_is_1)) PNone).
Proof.
  apply (add_pending_job_metadata_not_serializable at_10_00_00 "job-1"
           "key-1" "type-1" "api-1" x_is_1
           {["when" := PDateTime at_10_00_00]} PNone init
           "when" (PDateTime at_10_00_00)).
  - compute_done.
  - reflexivity.
  - reflexivity.
  - reflexivity.
  - reflexivity.
Defined.

Lemma add_pending_job_metadata_not_a_dict_witness :
  add_pending_job at_10_00_00 "job-1" "key-1" "type-1" "api-1" x_is_1
    (PList [PInt 1]) PNone init
  = (init, Raise AttributeError) ∧
  select_job "job-1"
    (working
       (add_pending_job_body at_10_00_00 "job-1" "key-1" "type-1" "api-1"
          (or_empty_dict x_is_1) (PList [PInt 1]) PNone
          (begin (connect init))).1)
  = Some (pending_row at_10_00_00 "job-1" "key-1" "type-1" "api-1"
            (Json.text (or_empty_dict x_is_1)) PNone).
Proof.
  apply (add_pending_job_metadata_not_a_dict at_10_00_00 "job-1" "key-1"
           "type-1" "api-1" x_is_1 (PList [PInt 1]) PNone init).
  - compute_done.
  - reflexivity.
  - reflexivity.
  - discriminate.
Defined.

Lemma get_job_after_complete_not_json_witness :
  get_job "job-1" (mark_job_as_completed at_10_00_05 "job-1" (PStr "done")
                     one_job) = Raise ValueError.
Proof.
  apply get_job_after_complete_not_json.
  - compute_done.
  - reflexivity.
Defined.

Lemma get_job_after_complete_without_data_witness :
  get_job "job-1" (mark_job_as_completed at_10_00_05 "job-1" PNone one_job) =
  Ok (Some (completed_record at_10_00_00 at_10_00_05 "job-1" "key-1" "type-1"
              x_is_1 PNone PNone a_and_b [])).
Proof.
  apply (get_job_after_complete_without_data at_10_00_00 at_10_00_05 "job-1"
           "key-1" "type-1" "api-1" {["x" := PInt 1]} a_and_b PNone init).
  - compute_done.
  - apply init_fk_ok.
  - reflexivity.
  - apply a_and_b_ok.
  - by left.
Defined.

Lemma get_job_after_complete_with_json_text_witness :
  get_job "job-1"
    (mark_job_as_completed at_10_00_05 "job-1" (PStr (Json.text x_is_1))
       one_job) =
  Ok (Some (completed_record at_10_00_00 at_10_00_05 "job-1" "key-1" "type-1"
              x_is_1 PNone x_is_1 a_and_b [])).
Proof.
  apply (get_job_after_complete_with_json_text at_10_00_00 at_10_00_05
           "job-1" "key-1" "type-1" "api-1" {["x" := PInt 1]} a_and_b PNone
           x_is_1 (Json.text x_is_1) init).
  - compute_done.
  - apply init_fk_ok.
  - reflexivity.
  - apply a_and_b_ok.
  - by left.
  - reflexivity.
Defined.

Lemma one_job_completed_reachable_encoded :
  reachable_encoded (mark_job_as_completed at_10_00_05 "job-1" PNone one_job).
Proof.
  apply reachable_encoded_complete; [|by left].
  apply reachable_encoded_add, reachable_encoded_init.
Qed.

Lemma get_job_never_raises_witness :
  ∃ o, get_job "job-1"
         (mark_job_as_completed at_10_00_05 "job-1" PNone one_job) = Ok o.
Proof.
  apply get_job_never_raises, one_job_completed_reachable_encoded.
Defined.

Lemma get_metadata_corrupt_row_witness :
  ∃ x, _get_metadata "job-1" one_job_corrupt = Raise x.
Proof.
  apply (get_metadata_corrupt_row "job-1" one_job_corrupt one_job_corrupt_row).
  - apply elem_of_app. right. by apply list_elem_of_singleton.
  - reflexivity.
  - reflexivity.
  - intros v. discriminate.
Defined.

Lemma get_job_record_shape_witness :
  dom (pending_record at_10_00_00 "job-1" "key-1" "type-1" "api-1" x_is_1
         PNone a_and_b [])
  = list_to_set (jobs_columns ++ ["metadata"; "logs"]) ∧
  pending_record at_10_00_00 "job-1" "key-1" "type-1" "api-1" x_is_1
    PNone a_and_b [] !! "job_id" = Some (PStr "job-1").
Proof.
  apply (get_job_record_shape "job-1" one_job). reflexivity.
Defined.

Lemma one_job_completed_reachable :
  reachable (mark_job_as_completed at_10_00_05 "job-1" PNone one_job).
Proof. apply reachable_complete, reachable_add, reachable_init. Qed.

Lemma reachable_pk_ok_witness :
  pk_ok (store (mark_job_as_completed at_10_00_05 "job-1" PNone one_job)).
Proof. apply reachable_pk_ok, one_job_completed_reachable. Defined.

Lemma reachable_fk_ok_witness :
  fk_ok (store (mark_job_as_completed at_10_00_05 "job-1" PNone one_job)).
Proof. apply reachable_fk_ok, one_job_completed_reachable. Defined.

Lemma init_again_keeps_jobs_witness :
  Globals.get_job "job-1" (Globals.init jobs_uri restarted)
  = Globals.Ran (get_job "job-1" (Engine (store one_job) 0)) ∧
  Globals.init jobs_uri (Globals.init jobs_uri restarted)
  = Globals.init jobs_uri restarted.
Proof.
  apply (init_again_keeps_jobs jobs_uri restarted (store one_job) "job-1").
  apply lookup_singleton_eq.
Defined.
